(** * Store_Backend: the customer API ([User_API/customer_crud.py])

    A shallow embedding of the four request handlers of the customer
    router ([view_store], [add_to_cart], [view_cart],
    [remove_item_from_cart]) and of [get_cart_key], together with the
    fragment of Redis (hashes with a per-key expiry) and of Python
    (dictionaries, exceptions, [try]/[except]) they run on.

    Conventions of the model:
    - a handler is a computation in a state and exception monad over the
      Redis server state; an exception leaves the state as the commands
      run so far have made it;
    - every Redis command is one round trip that may fail: a list of
      flags, one per command to come, says which ones raise, and a
      command that raises has no effect on the server;
    - a request is served at one instant of the server clock; time
      passes between requests ([elapse]);
    - requests are served one after the other. *)

From stdpp Require Import gmap strings pretty.
From Stdlib Require Import ZArith Lia Ascii String.

Local Open Scope string_scope.
Local Open Scope Z_scope.

(** ** Python values *)

(** The numeric type of the [Item.price] column is declared in
    [shared_files/models.py]; the handlers only format it, copy it into
    the cart and (should it ever sit under ['quantity']) do integer
    arithmetic on it.  Those operations form the interface below; the
    type is taken to be one that [json.dumps] accepts and [json.loads]
    gives back. *)
Class PyNumber (Price : Type) := {
  num_str : Price → string;          (* str(p), as used by an f-string *)
  num_add : Price → Z → Price;       (* p + n *)
  num_sub : Price → Z → Price;       (* p - n *)
  num_gt  : Price → Z → bool         (* p > n *)
}.

(** The scalar values that occur in the dictionaries the handlers build
    and in the JSON documents they store. *)
Inductive pyval (Price : Type) : Type :=
  | PNone
  | PBool (b : bool)
  | PInt (z : Z)
  | PNum (p : Price)
  | PStr (s : string).
Arguments PNone {Price}.
Arguments PBool {Price} b.
Arguments PInt {Price} z.
Arguments PNum {Price} p.
Arguments PStr {Price} s.

(** A Python [dict] with string keys. *)
Abbreviation pydict Price := (gmap string (pyval Price)).

(** Exceptions the handlers raise or let through. *)
Inductive exn : Type :=
  | HTTPException (status_code : Z) (detail : string)
  | TypeError
  | KeyError (key : string)
  | RedisError.

Inductive result (A : Type) : Type :=
  | Ok (a : A)
  | Raise (e : exn).
Arguments Ok {A} a.
Arguments Raise {A} e.

(** Modelled from the spec: the [Item] rows of [shared_files/models.py],
    "id (unique, stable), name (string), price (decimal/numeric),
    in_stock (boolean or quantity flag)". *)
Module Item.
Record t (Price : Type) : Type := mk {
  id : Z;
  name : string;
  price : Price;
  in_stock : pyval Price
}.
Arguments mk {Price} id name price in_stock.
Arguments id {Price} t.
Arguments name {Price} t.
Arguments price {Price} t.
Arguments in_stock {Price} t.
End Item.

(** What [verify_token] yields: the dictionary [{'sub': ..., 'user_id': ...}]. *)
Record user_info : Type := UserInfo {
  sub : string;
  user_id : Z
}.

(** ** JSON *)

(** The text [json.dumps] produces for a dictionary, represented by the
    document [json.loads] decodes it to. *)
Record json_text (Price : Type) : Type := JsonText {
  document : pydict Price
}.
Arguments JsonText {Price} document.
Arguments document {Price} j.

(** ** Redis *)

(** A hash key: its field/value mapping and the absolute time (in seconds)
    at which the key expires, if an expiry is set. *)
Record hash (Price : Type) : Type := Hash {
  fields : gmap string (json_text Price);
  deadline : option Z
}.
Arguments Hash {Price} fields deadline.
Arguments fields {Price} h.
Arguments deadline {Price} h.

(** The server behind the client [r]: the key space and the clock. *)
Record redis (Price : Type) : Type := Redis {
  store : gmap string (hash Price);
  now : Z
}.
Arguments Redis {Price} store now.
Arguments store {Price} r.
Arguments now {Price} r.

(** ** Strings *)

(** [str(n)] of a Python [int]: decimal digits, with a leading minus sign. *)
Definition str (n : Z) : string := pretty n.

(** [c in s] for a character. *)
Fixpoint char_in (c : ascii) (s : string) : Prop :=
  match s with
  | EmptyString => False
  | String c' s' => c = c' ∨ char_in c s'
  end.

Definition get_cart_key (username : string) (id : Z) : string :=
  "cart:" +:+ username +:+ "_" +:+ str id.

Section Handlers.
Context {Price : Type} `{!PyNumber Price}.

Abbreviation pyval := (pyval Price).
Abbreviation redis := (redis Price).
Abbreviation hash := (hash Price).
Abbreviation json_text := (json_text Price).

(** *** State and exception monad

    A computation runs on the server state and on the fate of the
    commands to come (one flag per command, [true]: the command raises;
    none left: no more failures).  It either returns or raises, and the
    state it leaves behind is kept in both cases. *)
Definition M (A : Type) : Type :=
  redis * list bool → result A * (redis * list bool).

Definition ret {A} (a : A) : M A := λ r, (Ok a, r).
Definition raise {A} (e : exn) : M A := λ r, (Raise e, r).
Definition bind {A B} (m : M A) (k : A → M B) : M B := λ r,
  match m r with
  | (Ok a, r') => k a r'
  | (Raise e, r') => (Raise e, r')
  end.
(** [try: m except: handler] with a bare [except]. *)
Definition try_except {A} (m : M A) (handler : M A) : M A := λ r,
  match m r with
  | (Ok a, r') => (Ok a, r')
  | (Raise _, r') => handler r'
  end.
Definition lift {A} (x : result A) : M A := λ r, (x, r).

Notation "x <- m ;; k" := (bind m (λ x, k))
  (at level 100, m at next level, right associativity).

(** *** Python operators on the values *)

(** [d.get(key, default)] *)
Definition dict_get (d : pydict Price) (key : string) (dflt : pyval) : pyval :=
  default dflt (d !! key).

(** [d[key]] *)
Definition dict_index (d : pydict Price) (key : string) : result pyval :=
  match d !! key with
  | Some v => Ok v
  | None => Raise (KeyError key)
  end.

(** [v + n] and [v - n] for an [int] literal [n]; [bool] is a subclass
    of [int]. *)
Definition py_add (v : pyval) (n : Z) : result pyval :=
  match v with
  | PInt z => Ok (PInt (z + n))
  | PBool b => Ok (PInt (Z.b2z b + n))
  | PNum p => Ok (PNum (num_add p n))
  | PNone | PStr _ => Raise TypeError
  end.

Definition py_sub (v : pyval) (n : Z) : result pyval :=
  match v with
  | PInt z => Ok (PInt (z - n))
  | PBool b => Ok (PInt (Z.b2z b - n))
  | PNum p => Ok (PNum (num_sub p n))
  | PNone | PStr _ => Raise TypeError
  end.

(** [v > n] *)
Definition py_gt (v : pyval) (n : Z) : result bool :=
  match v with
  | PInt z => Ok (bool_decide (z > n))
  | PBool b => Ok (bool_decide (Z.b2z b > n))
  | PNum p => Ok (num_gt p n)
  | PNone | PStr _ => Raise TypeError
  end.

(** [json.dumps(d)] *)
Definition json_dumps (d : pydict Price) : json_text := JsonText d.

(** [json.loads(x)] of what [hget] returned: [None] is not a string. *)
Definition json_loads (x : option json_text) : result (pydict Price) :=
  match x with
  | Some s => Ok (document s)
  | None => Raise TypeError
  end.

(** A list comprehension: the elements are evaluated in order and the
    first exception ends it. *)
Fixpoint comprehension {A} (xs : list (result A)) : result (list A) :=
  match xs with
  | [] => Ok []
  | x :: xs =>
      match x with
      | Ok a =>
          match comprehension xs with
          | Ok l => Ok (a :: l)
          | Raise e => Raise e
          end
      | Raise e => Raise e
      end
  end.

(** *** Redis commands *)

Definition expired (h : hash) (t : Z) : bool :=
  match deadline h with
  | Some d => bool_decide (d ≤ t)
  | None => false
  end.

(** The hash a command finds under [key]: none once the key has expired. *)
Definition live (key : string) (r : redis) : option hash :=
  store r !! key ≫= λ h, if expired h (now r) then None else Some h.

(** [HGET key field] *)
Definition HGET (key field : string) (r : redis) : option json_text :=
  live key r ≫= λ h, fields h !! field.

(** [HGETALL key] *)
Definition HGETALL (key : string) (r : redis) : gmap string json_text :=
  from_option fields ∅ (live key r).

(** [HSET key field value]: the field is set in the live hash, whose
    expiry is kept, or a new hash without expiry is created. *)
Definition HSET (key field : string) (value : json_text) (r : redis) : redis :=
  let h := match live key r with
           | Some h => Hash (<[field := value]> (fields h)) (deadline h)
           | None => Hash {[field := value]} None
           end in
  Redis (<[key := h]> (store r)) (now r).

(** [EXPIRE key seconds] *)
Definition EXPIRE (key : string) (seconds : Z) (r : redis) : redis :=
  match live key r with
  | Some h => Redis (<[key := Hash (fields h) (Some (now r + seconds))]> (store r)) (now r)
  | None => r
  end.

(** [HDEL key field]: a hash that loses its last field is removed from
    the key space. *)
Definition HDEL (key field : string) (r : redis) : redis :=
  match live key r with
  | Some h =>
      let fs := delete field (fields h) in
      if bool_decide (dom fs = ∅) then Redis (delete key (store r)) (now r)
      else Redis (<[key := Hash fs (deadline h)]> (store r)) (now r)
  | None => r
  end.

(** Time passing between two requests. *)
Definition elapse (dt : Z) (r : redis) : redis := Redis (store r) (now r + dt).

(** One round trip of the client: it raises when the next flag is set,
    and otherwise the server runs [f]. *)
Definition command {A} (f : redis → A * redis) : M A := λ '(r, fs),
  match fs with
  | true :: fs' => (Raise RedisError, (r, fs'))
  | false :: fs' => (Ok (f r).1, ((f r).2, fs'))
  | [] => (Ok (f r).1, ((f r).2, []))
  end.

Definition hget (key field : string) : M (option json_text) :=
  command (λ r, (HGET key field r, r)).

Definition hset (key field : string) (value : json_text) : M unit :=
  command (λ r, (tt, HSET key field value r)).

Definition expire (key : string) (seconds : Z) : M bool :=
  command (λ r, (bool_decide (is_Some (live key r)), EXPIRE key seconds r)).

Definition hgetall (key : string) : M (gmap string json_text) :=
  command (λ r, (HGETALL key r, r)).

Definition hdel (key field : string) : M unit :=
  command (λ r, (tt, HDEL key field r)).

(** *** The handlers *)

(** [User_API.auth.verify_token]: the claims of a valid token, or the
    exception it raises. *)
Variable verify_token : string → result user_info.

Definition view_store (db : list (Item.t Price)) : result (list (pydict Price)) :=
  let inventory := db in
  match inventory with
  | [] => Raise (HTTPException 404
            "There are no items in inventory right now. Please come back later.")
  | _ =>
      Ok ((λ item, {[ "name" := PStr (Item.name item);
                      "price" := PStr ("$" +:+ num_str (Item.price item));
                      "in_stock" := Item.in_stock item ]}) <$> inventory)
  end.

Definition add_to_cart (id : Z) (token : string) (db : list (Item.t Price))
    : M (pydict Price) :=
  user_info <- lift (verify_token token);;
  let cart_key := get_cart_key (sub user_info) (user_id user_info) in
  match head (filter (λ item, Item.id item = id) db) with
  | None =>
      raise (HTTPException 404 ("There is no item with the id: " +:+ str id))
  | Some item =>
      _ <- try_except
        (existing_item <- hget cart_key (str (Item.id item));;
         item_info <- match existing_item with
                     | Some _ =>
                         item_info <- lift (json_loads existing_item);;
                         quantity <- lift (py_add (dict_get item_info "quantity" (PInt 1)) 1);;
                         ret (<["quantity" := quantity]> item_info)
                     | None =>
                         ret ({[ "id" := PInt (Item.id item);
                                 "name" := PStr (Item.name item);
                                 "price" := PNum (Item.price item);
                                 "quantity" := PInt 1 ]} : pydict Price)
                     end;;
         _ <- hset cart_key (str (Item.id item)) (json_dumps item_info);;
         _ <- expire cart_key 86400;;
         ret tt)
        (raise (HTTPException 500
           ("There was a problem adding " +:+ Item.name item
            +:+ " to cart. Please try again later.")));;
      ret {[ "message" := PStr ("Item: " +:+ Item.name item +:+ " was added to cart!") ]}
  end.

Definition view_cart (token : string) : M (list (pydict Price)) :=
  user_info <- lift (verify_token token);;
  let cart_key := get_cart_key (sub user_info) (user_id user_info) in
  cart <- hgetall cart_key;;
  lift (comprehension ((λ '(id, text), json_loads (Some text)) <$> map_to_list cart)).

Definition remove_item_from_cart (id : Z) (token : string) : M (pydict Price) :=
  user_info <- lift (verify_token token);;
  let cart_key := get_cart_key (sub user_info) (user_id user_info) in
  raw <- hget cart_key (str id);;
  item <- lift (json_loads raw);;
  _ <- try_except
    (quantity <- lift (dict_index item "quantity");;
     more <- lift (py_gt quantity 1);;
     if (more : bool) then
       quantity' <- lift (py_sub (dict_get item "quantity" (PInt 1)) 1);;
       hset cart_key (str id) (json_dumps (<["quantity" := quantity']> item))
     else
       hdel cart_key (str id))
    (raise (HTTPException 500
       "Could not delete item from the cart. Please try again later."));;
  ret {[ "message" := PStr "The item was removed from your cart." ]}.

(** *** Runs of the service *)

(** The outcome of a request and the server state it leaves. *)
Definition outcome {A} (m : M A) (r : redis) (fs : list bool) : result A := (m (r, fs)).1.
Definition after {A} (m : M A) (r : redis) (fs : list bool) : redis := (m (r, fs)).2.1.

(** The first [n] commands to come do not fail. *)
Definition quiet (n : nat) (fs : list bool) : bool := forallb negb (take n fs).

(** One event at the cart store: a request is served, whichever of its
    commands fail, or time passes. *)
Inductive step : redis → redis → Prop :=
  | step_add id token db fs r : step r (after (add_to_cart id token db) r fs)
  | step_remove id token fs r : step r (after (remove_item_from_cart id token) r fs)
  | step_view token fs r : step r (after (view_cart token) r fs)
  | step_elapse dt r : 0 ≤ dt → step r (elapse dt r).

(** The states the service can be in, starting with no cart at all. *)
Inductive reachable : redis → Prop :=
  | reachable_init t : reachable (Redis ∅ t)
  | reachable_step r r' : reachable r → step r r' → reachable r'.

(** The line item [add_to_cart] writes for [item], given what [hget]
    returned for it: the [if]/[else] of the handler on its own. *)
Definition new_item_info (item : Item.t Price) (existing_item : option json_text)
    : result (pydict Price) :=
  match existing_item with
  | Some text =>
      let item_info := document text in
      match py_add (dict_get item_info "quantity" (PInt 1)) 1 with
      | Ok quantity => Ok (<["quantity" := quantity]> item_info)
      | Raise e => Raise e
      end
  | None =>
      Ok {[ "id" := PInt (Item.id item);
            "name" := PStr (Item.name item);
            "price" := PNum (Item.price item);
            "quantity" := PInt 1 ]}
  end.

(** The responses of the two cart mutations. *)
Definition added (item : Item.t Price) : pydict Price :=
  {[ "message" := PStr ("Item: " +:+ Item.name item +:+ " was added to cart!") ]}.
Definition removed : pydict Price :=
  {[ "message" := PStr "The item was removed from your cart." ]}.
Definition add_failed (item : Item.t Price) : exn :=
  HTTPException 500
    ("There was a problem adding " +:+ Item.name item
     +:+ " to cart. Please try again later.").

(** [wp m Q r]: started on the server state [r], and whichever commands
    fail, [m] ends with an outcome and a server state related by [Q]. *)
Definition wp {A} (m : M A) (Q : result A → redis → Prop) (r : redis) : Prop :=
  ∀ fs, Q (outcome m r fs) (after m r fs).

(** A well-formed line item under [field]: it carries the item id the
    field is named after and a positive integer quantity. *)
Definition line_ok (field : string) (d : pydict Price) : Prop :=
  ∃ i q, field = str i ∧ d !! "id" = Some (PInt i)
         ∧ d !! "quantity" = Some (PInt q) ∧ 1 ≤ q.

Definition carts_ok (r : redis) : Prop :=
  ∀ key h field text,
    store r !! key = Some h → fields h !! field = Some text →
    line_ok field (document text).

End Handlers.

(** ** A concrete instance: prices in an integer column *)

#[export] Instance int_number : PyNumber Z := {
  num_str := str;
  num_add := Z.add;
  num_sub := Z.sub;
  num_gt p n := bool_decide (p > n)
}.

Definition demo_verify_token (token : string) : result user_info :=
  if decide (token = "alice-token") then Ok (UserInfo "alice" 7)
  else Raise (HTTPException 401 "Invalid or expired token").

Definition demo_db : list (Item.t Z) :=
  [Item.mk 1 "Widget" 999 (PBool true); Item.mk 2 "Gadget" 1250 (PBool false)].

Definition demo_redis : redis Z := Redis ∅ 0.

Definition alice : user_info := UserInfo "alice" 7.
Definition widget : Item.t Z := Item.mk 1 "Widget" 999 (PBool true).
Definition widget_line (quantity : Z) : pydict Z :=
  {[ "id" := PInt 1; "name" := PStr "Widget"; "price" := PNum 999;
     "quantity" := PInt quantity ]}.

(** Alice's cart after one and after two adds of the widget. *)
Definition demo_cart1 : redis Z :=
  after (add_to_cart demo_verify_token 1 "alice-token" demo_db) demo_redis [].
Definition demo_cart2 : redis Z :=
  after (add_to_cart demo_verify_token 1 "alice-token" demo_db) demo_cart1 [].

(** ** Sessions *)

Section Sessions.
Context {Price : Type} `{!PyNumber Price}.
Variable verify_token : string → result user_info.

(** The same request served [n] times in a row by a working cache. *)
Fixpoint served {A} (n : nat) (m : M A) (r : redis Price) : redis Price :=
  match n with
  | O => r
  | S n => after m (served n m r) []
  end.

(** The line item of [item] with a given quantity. *)
Definition line_item (item : Item.t Price) (quantity : Z) : pydict Price :=
  {[ "id" := PInt (Item.id item);
     "name" := PStr (Item.name item);
     "price" := PNum (Item.price item);
     "quantity" := PInt quantity ]}.

(** One event at the cart store when no command of an [add_to_cart]
    fails (the other requests may fail as they like). *)
Inductive healthy_step : redis Price → redis Price → Prop :=
  | healthy_add id token db fs r :
      quiet 3 fs = true →
      healthy_step r (after (add_to_cart verify_token id token db) r fs)
  | healthy_remove id token fs r :
      healthy_step r (after (remove_item_from_cart verify_token id token) r fs)
  | healthy_view token fs r :
      healthy_step r (after (view_cart verify_token token) r fs)
  | healthy_elapse dt r : 0 ≤ dt → healthy_step r (elapse dt r).

Inductive healthy : redis Price → Prop :=
  | healthy_init t : healthy (Redis ∅ t)
  | healthy_next r r' : healthy r → healthy_step r r' → healthy r'.

(** Every cart has an expiry, at most 24 hours ahead. *)
Definition carts_expire (r : redis Price) : Prop :=
  ∀ key h, store r !! key = Some h →
    ∃ t, deadline h = Some t ∧ t ≤ now r + 86400.

End Sessions.

(** A verifier that knows two users, and a store holding a line item
    that lost its ['quantity']. *)
Definition bob : user_info := UserInfo "bob" 8.

Definition shop_verify_token (token : string) : result user_info :=
  if decide (token = "alice-token") then Ok alice
  else if decide (token = "bob-token") then Ok bob
  else Raise (HTTPException 401 "Invalid or expired token").

Definition odd_redis : redis Z :=
  Redis {[ get_cart_key "alice" 7 :=
             Hash {[ str 1 := json_dumps {[ "id" := PInt 1 ]} ]} None ]} 0.

(** * Properties *)

(** ** Cart keys *)

Lemma char_in_app c s1 s2 :
  char_in c (s1 +:+ s2) ↔ char_in c s1 ∨ char_in c s2.
Proof.
  induction s1 as [|c' s1 IH]; simpl.
  - tauto.
  - rewrite IH. tauto.
Qed.

Lemma pretty_N_go_no_underscore x s :
  ¬ char_in "_" s → ¬ char_in "_" (pretty_N_go x s).
Proof.
  revert s. induction (N.lt_wf_0 x) as [x _ IH]; intros s Hs.
  destruct (decide (x = 0%N)) as [->|Hx].
  - by rewrite pretty_N_go_0.
  - rewrite pretty_N_go_step by lia. apply IH.
    + apply N.div_lt; lia.
    + simpl. intros [Hc|Hc]; [|done].
      revert Hc. unfold pretty_N_char. by repeat case_match.
Qed.

Lemma pretty_N_no_underscore (x : N) : ¬ char_in "_" (pretty x).
Proof.
  unfold pretty, pretty_N. case_decide.
  - simpl. intros [?|[]]; discriminate.
  - apply pretty_N_go_no_underscore. simpl. tauto.
Qed.

(** The decimal rendering of an integer never contains the separator. *)
Lemma str_no_underscore z : ¬ char_in "_" (str z).
Proof.
  unfold str, pretty, pretty_Z. destruct z as [|p|p].
  - simpl. intros [?|[]]; discriminate.
  - apply pretty_N_no_underscore.
  - rewrite char_in_app. intros [[?|[]]|?]; [discriminate|].
    by apply (pretty_N_no_underscore (Npos p)).
Qed.

Lemma str_inj i j : str i = str j → i = j.
Proof. apply pretty_Z_inj. Qed.

(** A text is split in one way only at its last separator. *)
Lemma split_last_underscore s1 s2 d1 d2 :
  ¬ char_in "_" d1 → ¬ char_in "_" d2 →
  s1 +:+ "_" +:+ d1 = s2 +:+ "_" +:+ d2 → s1 = s2 ∧ d1 = d2.
Proof.
  intros Hd1 Hd2. revert s2.
  induction s1 as [|a s1 IH]; intros [|b s2]; simpl; intros Heq.
  - by simplify_eq.
  - injection Heq as _ Hd. destruct Hd1. change (d1 = s2 +:+ "_" +:+ d2) in Hd.
    rewrite Hd. apply char_in_app. right. simpl. by left.
  - injection Heq as _ Hd. destruct Hd2. change (s1 +:+ "_" +:+ d1 = d2) in Hd.
    rewrite <- Hd. apply char_in_app. right. simpl. by left.
  - injection Heq as -> Heq. destruct (IH _ Heq) as [-> ->]. done.
Qed.

Lemma get_cart_key_eq s1 i1 s2 i2 :
  get_cart_key s1 i1 = get_cart_key s2 i2 → s1 = s2 ∧ i1 = i2.
Proof.
  unfold get_cart_key. simpl. intros [= Heq].
  apply split_last_underscore in Heq as [-> Hi]; auto using str_no_underscore.
  by apply str_inj in Hi as ->.
Qed.

(** C4: [get_cart_key] is a function of its two arguments, and distinct
    (subject, user id) pairs get distinct keys, whether or not the subject
    contains the separator ["_"]. *)
Theorem get_cart_key_injective (s1 s2 : string) (i1 i2 : Z) :
  (s1, i1) ≠ (s2, i2) → get_cart_key s1 i1 ≠ get_cart_key s2 i2.
Proof.
  intros Hne Heq. apply Hne.
  by destruct (get_cart_key_eq _ _ _ _ Heq) as [-> ->].
Qed.

Lemma get_cart_key_injective_witness :
  get_cart_key "a_1" 2 ≠ get_cart_key "a" 12
  ∧ get_cart_key "a_1" 2 = "cart:a_1_2"
  ∧ get_cart_key "a" 12 = "cart:a_12".
Proof.
  split; [|split; reflexivity].
  apply (get_cart_key_injective "a_1" "a" 2 12). intros [= ?].
Defined.


(** ** The Redis fragment *)

Section Server.
Context {Price : Type}.
Implicit Types (r : redis Price) (h : hash Price) (d : pydict Price).
Implicit Types (value text : json_text Price).
Implicit Types (key field : string).

Lemma live_Some key r h :
  live key r = Some h ↔ store r !! key = Some h ∧ expired h (now r) = false.
Proof.
  unfold live. destruct (store r !! key) as [h'|]; simpl.
  - destruct (expired h' (now r)) eqn:He; split.
    + discriminate.
    + intros [[= ->] ?]. congruence.
    + by intros [= ->].
    + by intros [[= ->] _].
  - split; [discriminate|]. by intros [? _].
Qed.

Lemma live_HSET key' key field value r :
  live key' (HSET key field value r) =
    if decide (key' = key)
    then Some (Hash (<[field := value]> (HGETALL key r)) (live key r ≫= deadline))
    else live key' r.
Proof.
  unfold HSET, HGETALL. case_decide as Hk.
  - subst key'. unfold live at 1. simpl. rewrite lookup_insert_eq. simpl.
    destruct (live key r) as [h|] eqn:Hl; simpl.
    + apply live_Some in Hl as [_ Hx]. unfold expired in *. simpl. by rewrite Hx.
    + by rewrite insert_empty.
  - unfold live at 1. simpl. by rewrite lookup_insert_ne.
Qed.

Lemma live_EXPIRE key' key s r :
  0 < s →
  live key' (EXPIRE key s r) =
    if decide (key' = key)
    then (λ h, Hash (fields h) (Some (now r + s))) <$> live key r
    else live key' r.
Proof.
  intros Hs. unfold EXPIRE.
  destruct (live key r) as [h|] eqn:Hl; simpl.
  - unfold live at 1. simpl. case_decide as Hk.
    + subst key'. rewrite lookup_insert_eq. simpl. unfold expired. simpl.
      rewrite bool_decide_eq_false_2 by lia. done.
    + by rewrite lookup_insert_ne.
  - case_decide; by subst.
Qed.

Lemma live_HDEL key' key field r :
  live key' (HDEL key field r) =
    if decide (key' = key)
    then live key r ≫= λ h,
           if bool_decide (dom (delete field (fields h)) = ∅) then None
           else Some (Hash (delete field (fields h)) (deadline h))
    else live key' r.
Proof.
  unfold HDEL. destruct (live key r) as [h|] eqn:Hl; simpl.
  - pose proof Hl as [_ Hx]%live_Some.
    destruct (decide (key' = key)) as [->|Hk];
      destruct (bool_decide (dom (delete field (fields h)) = ∅));
      unfold live at 1; simpl.
    + by rewrite lookup_delete_eq.
    + rewrite lookup_insert_eq. simpl. unfold expired in *. simpl. by rewrite Hx.
    + by rewrite lookup_delete_ne.
    + by rewrite lookup_insert_ne.
  - case_decide; by subst.
Qed.

Lemma HGET_HSET key' field' key field value r :
  HGET key' field' (HSET key field value r) =
    if decide (key' = key ∧ field' = field) then Some value
    else HGET key' field' r.
Proof.
  unfold HGET. rewrite live_HSET.
  destruct (decide (key' = key)) as [->|Hk]; simpl.
  - destruct (decide (field' = field)) as [->|Hf].
    + rewrite lookup_insert_eq. by rewrite decide_True.
    + rewrite lookup_insert_ne by done. rewrite decide_False by (intros [? ?]; congruence).
      unfold HGETALL. by destruct (live key r).
  - by rewrite decide_False by (intros [? ?]; congruence).
Qed.

Lemma HGET_EXPIRE key' field' key s r :
  0 < s → HGET key' field' (EXPIRE key s r) = HGET key' field' r.
Proof.
  intros Hs. unfold HGET. rewrite live_EXPIRE by done.
  case_decide; [subst|done]. by destruct (live key r).
Qed.

Lemma HGET_HDEL key' field' key field r :
  HGET key' field' (HDEL key field r) =
    if decide (key' = key ∧ field' = field) then None
    else HGET key' field' r.
Proof.
  unfold HGET. rewrite live_HDEL.
  destruct (decide (key' = key)) as [->|Hk]; simpl;
    [|by rewrite decide_False by (intros [? ?]; congruence)].
  destruct (live key r) as [h|]; simpl; [|by case_decide].
  destruct (decide (field' = field)) as [->|Hf].
  - rewrite decide_True by done.
    case_bool_decide; simpl; [done|]. by rewrite lookup_delete_eq.
  - rewrite decide_False by (intros [? ?]; congruence).
    case_bool_decide as Hd; simpl.
    + destruct (fields h !! field') as [text|] eqn:Hl; [exfalso|done].
      assert (field' ∈ dom (delete field (fields h))) as Hin.
      { apply elem_of_dom. rewrite lookup_delete_ne by done. eauto. }
      rewrite Hd in Hin. by apply not_elem_of_empty in Hin.
    + by rewrite lookup_delete_ne.
Qed.

Lemma HGETALL_lookup key field r : HGETALL key r !! field = HGET key field r.
Proof. unfold HGETALL, HGET. by destruct (live key r). Qed.

Lemma HGETALL_HDEL key field r :
  HGETALL key (HDEL key field r) = delete field (HGETALL key r).
Proof.
  apply map_eq. intros f. rewrite lookup_delete, !HGETALL_lookup, HGET_HDEL.
  destruct (decide (field = f)) as [->|Hf].
  - by rewrite decide_True.
  - by rewrite decide_False by (intros [? ?]; congruence).
Qed.

(** Time only makes carts disappear. *)
Lemma HGETALL_elapse key dt r :
  0 ≤ dt →
  HGETALL key (elapse dt r) = ∅ ∨ HGETALL key (elapse dt r) = HGETALL key r.
Proof.
  intros Hdt. unfold HGETALL, live, elapse. simpl.
  destruct (store r !! key) as [h|]; simpl; [|by left].
  destruct (expired h (now r + dt)) eqn:Hx'; simpl; [by left|].
  destruct (expired h (now r)) eqn:Hx; simpl; [|by right].
  unfold expired in *. destruct (deadline h) as [t|]; [|done].
  apply bool_decide_eq_true in Hx. apply bool_decide_eq_false in Hx'. lia.
Qed.

Lemma carts_ok_HSET key field value r :
  carts_ok r → line_ok field (document value) → carts_ok (HSET key field value r).
Proof.
  intros Hr Hv key' h' f text. unfold HSET. simpl.
  destruct (decide (key' = key)) as [->|Hk].
  - rewrite lookup_insert_eq. intros [= <-].
    destruct (live key r) as [h|] eqn:Hl; simpl.
    + apply live_Some in Hl as [Hs _].
      destruct (decide (f = field)) as [->|Hf].
      * rewrite lookup_insert_eq. by intros [= <-].
      * rewrite lookup_insert_ne by done. by apply (Hr key h).
    + destruct (decide (f = field)) as [->|Hf].
      * rewrite lookup_singleton_eq. by intros [= <-].
      * by rewrite lookup_singleton_ne.
  - rewrite lookup_insert_ne by done. apply Hr.
Qed.

Lemma carts_ok_EXPIRE key s r : carts_ok r → carts_ok (EXPIRE key s r).
Proof.
  intros Hr key' h' f text. unfold EXPIRE.
  destruct (live key r) as [h|] eqn:Hl; [|apply Hr]. simpl.
  apply live_Some in Hl as [Hs _].
  destruct (decide (key' = key)) as [->|Hk].
  - rewrite lookup_insert_eq. intros [= <-]. simpl. by apply (Hr key h).
  - rewrite lookup_insert_ne by done. apply Hr.
Qed.

Lemma carts_ok_HDEL key field r : carts_ok r → carts_ok (HDEL key field r).
Proof.
  intros Hr key' h' f text. unfold HDEL.
  destruct (live key r) as [h|] eqn:Hl; [|apply Hr]. simpl.
  apply live_Some in Hl as [Hs _].
  case_bool_decide; simpl.
  - intros [_ Hd]%lookup_delete_Some. by apply (Hr key' h').
  - destruct (decide (key' = key)) as [->|Hk].
    + rewrite lookup_insert_eq. intros [= <-]. simpl.
      intros [_ Hd]%lookup_delete_Some. by apply (Hr key h).
    + rewrite lookup_insert_ne by done. apply Hr.
Qed.

Lemma carts_ok_elapse dt r : carts_ok r → carts_ok (elapse dt r).
Proof. done. Qed.

Lemma carts_ok_HGET key field r text :
  carts_ok r → HGET key field r = Some text → line_ok field (document text).
Proof.
  unfold HGET. intros Hr Hd.
  destruct (live key r) as [h|] eqn:Hl; [|done].
  apply live_Some in Hl as [Hs _]. by apply (Hr key h).
Qed.

End Server.

(** ** Computations *)

Section Requests.
Context {Price : Type} `{!PyNumber Price}.
Variable verify_token : string → result user_info.
Implicit Types (r : redis Price) (fs : list bool) (d : pydict Price).
Implicit Types (db : list (Item.t Price)) (item : Item.t Price).

Lemma quiet_tail n fs : quiet (S n) fs = true → quiet n (tail fs) = true.
Proof.
  unfold quiet. destruct fs as [|b fs]; simpl; [by destruct n|].
  by intros [_ ?]%andb_prop.
Qed.

Lemma quiet_weaken n fs : quiet (S n) fs = true → quiet n fs = true.
Proof.
  unfold quiet. revert fs. induction n as [|n IH]; intros [|b fs]; simpl; try done.
  intros [Hb Hfs]%andb_prop. rewrite Hb. simpl. by apply IH.
Qed.

(** A command that is not set to fail returns what the server answers. *)
Lemma command_quiet {A} n (f : redis Price → A * redis Price) r fs :
  quiet (S n) fs = true →
  command f (r, fs) = (Ok (f r).1, ((f r).2, tail fs)).
Proof. unfold quiet. by destruct fs as [|[] fs]. Qed.

Lemma wp_ret {A} (a : A) (Q : result A → redis Price → Prop) r :
  Q (Ok a) r → wp (ret a) Q r.
Proof. by intros HQ fs. Qed.

Lemma wp_raise {A} e (Q : result A → redis Price → Prop) r :
  Q (Raise e) r → wp (raise e) Q r.
Proof. by intros HQ fs. Qed.

Lemma wp_lift {A} (x : result A) (Q : result A → redis Price → Prop) r :
  Q x r → wp (lift x) Q r.
Proof. by intros HQ fs. Qed.

Lemma wp_bind {A B} (m : M A) (k : A → M B) (Q : result B → redis Price → Prop) r :
  wp m (λ x r', match x with
                | Ok a => wp (k a) Q r'
                | Raise e => Q (Raise e) r'
                end) r →
  wp (bind m k) Q r.
Proof.
  intros Hm fs. specialize (Hm fs). revert Hm.
  unfold outcome, after, bind.
  destruct (m (r, fs)) as [[a|e] [r' fs']]; simpl; [|done].
  intros Hk. apply (Hk fs').
Qed.

Lemma wp_try_except {A} (m handler : M A) (Q : result A → redis Price → Prop) r :
  wp m (λ x r', match x with
                | Ok a => Q (Ok a) r'
                | Raise _ => wp handler Q r'
                end) r →
  wp (try_except m handler) Q r.
Proof.
  intros Hm fs. specialize (Hm fs). revert Hm.
  unfold outcome, after, try_except.
  destruct (m (r, fs)) as [[a|e] [r' fs']]; simpl; [done|].
  intros Hh. apply (Hh fs').
Qed.

Lemma wp_command {A} (f : redis Price → A * redis Price)
    (Q : result A → redis Price → Prop) r :
  Q (Raise RedisError) r → Q (Ok (f r).1) (f r).2 → wp (command f) Q r.
Proof. intros Hfail Hok fs. unfold outcome, after. by destruct fs as [|[] fs]. Qed.

(** Decoding the values of a mapping one by one does not fail. *)
Lemma comprehension_json_loads (l : list (string * json_text Price)) :
  comprehension ((λ '(id, text), json_loads (Some text)) <$> l)
    = Ok (document <$> l.*2).
Proof.
  induction l as [|[id text] l IH]; csimpl in *; [done|]. by rewrite IH.
Qed.

(** The row [.first()] returns has the id that was asked for. *)
Lemma first_by_id db id item :
  head (filter (λ item, Item.id item = id) db) = Some item → Item.id item = id.
Proof.
  intros Hh%head_Some_elem_of. by apply list_elem_of_filter in Hh as [? _].
Qed.

(** *** [add_to_cart], command by command *)

Lemma add_to_cart_run id token db r fs u item :
  verify_token token = Ok u →
  head (filter (λ item, Item.id item = id) db) = Some item →
  quiet 3 fs = true →
  let key := get_cart_key (sub u) (user_id u) in
  add_to_cart verify_token id token db (r, fs) =
    match new_item_info item (HGET key (str id) r) with
    | Ok item_info =>
        (Ok (added item),
         (EXPIRE key 86400 (HSET key (str id) (json_dumps item_info) r),
          tail (tail (tail fs))))
    | Raise _ => (Raise (add_failed item), (r, tail fs))
    end.
Proof.
  intros Hu Hitem Hq key. pose proof (first_by_id _ _ _ Hitem) as Hid.
  unfold add_to_cart, bind at 1, lift at 1. rewrite Hu, Hitem. subst id. fold key.
  unfold bind at 1, try_except, bind at 1, hget.
  rewrite (command_quiet 2) by done. simpl.
  apply quiet_tail in Hq.
  unfold new_item_info, bind at 1.
  destruct (HGET key (str (Item.id item)) r) as [[d]|]; simpl.
  - unfold bind at 1, lift. simpl. unfold bind at 1.
    destruct (py_add (dict_get d "quantity" (PInt 1)) 1) as [q|e]; simpl; [|done].
    unfold bind at 1, hset. rewrite (command_quiet 1) by done. simpl.
    apply quiet_tail in Hq.
    unfold bind, expire. rewrite (command_quiet 0) by done. reflexivity.
  - unfold bind at 1, hset. rewrite (command_quiet 1) by done. simpl.
    apply quiet_tail in Hq.
    unfold bind, expire. rewrite (command_quiet 0) by done. reflexivity.
Qed.

(** *** [remove_item_from_cart], command by command *)

Lemma remove_item_run id token r fs u d q :
  verify_token token = Ok u →
  quiet 2 fs = true →
  let key := get_cart_key (sub u) (user_id u) in
  HGET key (str id) r = Some (json_dumps d) →
  d !! "quantity" = Some (PInt q) →
  remove_item_from_cart verify_token id token (r, fs) =
    (Ok removed,
     (if bool_decide (q > 1)
      then HSET key (str id) (json_dumps (<["quantity" := PInt (q - 1)]> d)) r
      else HDEL key (str id) r,
      tail (tail fs))).
Proof.
  intros Hu Hq key Hd Hqty.
  unfold remove_item_from_cart, bind at 1, lift at 1. rewrite Hu. fold key.
  unfold bind at 1, hget. rewrite (command_quiet 1) by done. simpl.
  apply quiet_tail in Hq. rewrite Hd. simpl.
  unfold bind, lift, try_except, dict_index, dict_get. rewrite Hqty. simpl.
  case_bool_decide; cbv beta; unfold hset, hdel;
    rewrite (command_quiet 0) by done; reflexivity.
Qed.

Lemma remove_item_absent_run id token r fs u :
  verify_token token = Ok u →
  quiet 1 fs = true →
  HGET (get_cart_key (sub u) (user_id u)) (str id) r = None →
  remove_item_from_cart verify_token id token (r, fs) = (Raise TypeError, (r, tail fs)).
Proof.
  intros Hu Hq Hd.
  unfold remove_item_from_cart, bind at 1, lift at 1. rewrite Hu.
  unfold bind at 1, hget. rewrite (command_quiet 0) by done. simpl.
  by rewrite Hd.
Qed.

Lemma view_cart_run token r fs u :
  verify_token token = Ok u →
  quiet 1 fs = true →
  view_cart verify_token token (r, fs) =
    (Ok (document <$> (map_to_list (HGETALL (get_cart_key (sub u) (user_id u)) r)).*2),
     (r, tail fs)).
Proof.
  intros Hu Hq.
  unfold view_cart, bind at 1, lift at 1. rewrite Hu.
  unfold bind, hgetall. rewrite (command_quiet 0) by done. simpl.
  unfold lift. by rewrite comprehension_json_loads.
Qed.

(** *** Properties of every run, whichever commands fail *)

Ltac wp_step :=
  first [ apply wp_bind | apply wp_try_except | apply wp_ret | apply wp_raise
        | apply wp_command | apply wp_lift ];
  cbv beta iota; cbn [fst snd].

Ltac wp_case :=
  match goal with
  | |- wp (match ?x with _ => _ end) _ _ => destruct x eqn:?
  | |- match ?x with _ => _ end => destruct x eqn:?
  | |- wp (if ?x then _ else _) _ _ => destruct x eqn:?
  end.

Ltac wp_run := repeat first [ wp_step | wp_case ].

Lemma line_ok_new item :
  line_ok (str (Item.id item))
    {[ "id" := PInt (Item.id item); "name" := PStr (Item.name item);
       "price" := PNum (Item.price item); "quantity" := PInt 1 ]}.
Proof. exists (Item.id item), 1. by repeat split. Qed.

Lemma line_ok_incr field d v :
  line_ok field d → py_add (dict_get d "quantity" (PInt 1)) 1 = Ok v →
  line_ok field (<["quantity" := v]> d).
Proof.
  intros (i & q & -> & Hi & Hq & Hpos). unfold dict_get. rewrite Hq. simpl.
  intros [= <-]. exists i, (q + 1).
  rewrite lookup_insert_ne by done. rewrite lookup_insert_eq.
  repeat split; [done|lia].
Qed.

Lemma line_ok_decr field d qv v :
  line_ok field d → dict_index d "quantity" = Ok qv → py_gt qv 1 = Ok true →
  py_sub (dict_get d "quantity" (PInt 1)) 1 = Ok v →
  line_ok field (<["quantity" := v]> d).
Proof.
  intros (i & q & -> & Hi & Hq & Hpos). unfold dict_index, dict_get.
  rewrite Hq. simpl. intros [= <-]. simpl.
  intros [= Hgt%bool_decide_eq_true] [= <-]. exists i, (q - 1).
  rewrite lookup_insert_ne by done. rewrite lookup_insert_eq.
  repeat split; [done|lia].
Qed.

Lemma json_loads_Ok (x : option (json_text Price)) d :
  json_loads x = Ok d → x = Some (json_dumps d).
Proof. destruct x as [[d']|]; simpl; [|done]. by intros [= <-]. Qed.

Lemma add_to_cart_carts_ok id token db r :
  carts_ok r → wp (add_to_cart verify_token id token db) (λ _ r', carts_ok r') r.
Proof.
  intros Hr. unfold add_to_cart. wp_run; try done.
  all: try apply carts_ok_EXPIRE; apply carts_ok_HSET; simpl;
    eauto using line_ok_new, line_ok_incr, carts_ok_HGET.
Qed.

Lemma remove_item_carts_ok id token r :
  carts_ok r →
  wp (remove_item_from_cart verify_token id token) (λ _ r', carts_ok r') r.
Proof.
  intros Hr. unfold remove_item_from_cart. wp_run; try done.
  - apply carts_ok_HSET; [done|]. simpl.
    match goal with H : json_loads _ = Ok _ |- _ => apply json_loads_Ok in H end.
    eapply line_ok_decr; eauto.
    eapply (carts_ok_HGET _ _ _ (json_dumps _)); eauto.
  - by apply carts_ok_HDEL.
Qed.

Lemma view_cart_pure token r :
  wp (view_cart verify_token token) (λ _ r', r' = r) r.
Proof. unfold view_cart. by wp_run. Qed.

Lemma step_carts_ok r r' : step verify_token r r' → carts_ok r → carts_ok r'.
Proof.
  intros [id token db fs r0|id token fs r0|token fs r0|dt r0 Hdt] Hr.
  - by apply add_to_cart_carts_ok.
  - by apply remove_item_carts_ok.
  - by rewrite (view_cart_pure token r0 fs).
  - by apply carts_ok_elapse.
Qed.

Lemma reachable_carts_ok r : reachable verify_token r → carts_ok r.
Proof.
  induction 1 as [t|r r' _ IH Hstep].
  - intros key h field d. simpl. by rewrite lookup_empty.
  - by eapply step_carts_ok.
Qed.

(** C3: in every state the service can reach from the empty key space (by
    adds, removes and views, whichever commands fail, and with time
    passing in between), each stored line item has an integer quantity
    of at least 1; and removing a line item whose quantity is 1 removes
    the entry instead of storing quantity 0. *)
Theorem quantity_at_least_one r :
  reachable verify_token r →
  (∀ key h field d,
     store r !! key = Some h → fields h !! field = Some (json_dumps d) →
     ∃ q, d !! "quantity" = Some (PInt q) ∧ 1 ≤ q)
  ∧ (∀ id token fs u d,
       verify_token token = Ok u → quiet 2 fs = true →
       HGET (get_cart_key (sub u) (user_id u)) (str id) r = Some (json_dumps d) →
       d !! "quantity" = Some (PInt 1) →
       HGET (get_cart_key (sub u) (user_id u)) (str id)
         (after (remove_item_from_cart verify_token id token) r fs) = None).
Proof.
  intros Hr%reachable_carts_ok. split.
  - intros key h field d Hh Hd.
    destruct (Hr key h field (json_dumps d) Hh Hd) as (i & q & _ & _ & Hq & Hpos).
    eauto.
  - intros id token fs u d Hu Hfs Hd Hq. unfold after.
    rewrite (remove_item_run id token r fs u d 1) by done. simpl.
    rewrite HGET_HDEL. by rewrite decide_True.
Qed.

Lemma add_to_cart_frame id token db r :
  wp (add_to_cart verify_token id token db)
     (λ _ r', ∀ key field, field ≠ str id → HGET key field r' = HGET key field r) r.
Proof.
  unfold add_to_cart. wp_run; try done.
  all: match goal with H : head _ = Some _ |- _ => apply first_by_id in H as -> end.
  all: intros key field Hf; rewrite ?HGET_EXPIRE by lia; rewrite HGET_HSET;
    by rewrite decide_False by (intros [? ?]; congruence).
Qed.

Lemma remove_item_frame id token r :
  wp (remove_item_from_cart verify_token id token)
     (λ _ r', ∀ key field, field ≠ str id → HGET key field r' = HGET key field r) r.
Proof.
  unfold remove_item_from_cart. wp_run; try done.
  all: intros key field Hf; rewrite ?HGET_HSET, ?HGET_HDEL;
    by rewrite decide_False by (intros [? ?]; congruence).
Qed.

(** C10: an add or a remove for item [id], successful or not, leaves the
    line items of every other item id as they were, in this cart and in
    every other one. *)
Theorem other_line_items_unchanged id id' token db key r fs :
  id' ≠ id →
  HGET key (str id') (after (add_to_cart verify_token id token db) r fs)
    = HGET key (str id') r
  ∧ HGET key (str id') (after (remove_item_from_cart verify_token id token) r fs)
    = HGET key (str id') r.
Proof.
  intros Hne.
  assert (str id' ≠ str id) as Hf by (by intros ?%str_inj).
  split.
  - by apply (add_to_cart_frame id token db r fs).
  - by apply (remove_item_frame id token r fs).
Qed.

(** *** Adding *)

(** C1: with a valid token, an item of the catalog and a working cache,
    [add_to_cart] on an item id the cart does not hold stores a line item
    with quantity 1 and the item's current name and price; on an item id
    the cart holds it stores the same line item with its quantity
    incremented by 1, name and price as they were. *)
Theorem add_to_cart_line_item id token db r fs u item :
  verify_token token = Ok u →
  head (filter (λ item, Item.id item = id) db) = Some item →
  quiet 3 fs = true →
  let key := get_cart_key (sub u) (user_id u) in
  let r' := after (add_to_cart verify_token id token db) r fs in
  (HGET key (str id) r = None →
     outcome (add_to_cart verify_token id token db) r fs = Ok (added item)
     ∧ HGET key (str id) r' =
         Some (json_dumps
                 {[ "id" := PInt (Item.id item); "name" := PStr (Item.name item);
                    "price" := PNum (Item.price item); "quantity" := PInt 1 ]}))
  ∧ (∀ d q,
       HGET key (str id) r = Some (json_dumps d) →
       d !! "quantity" = Some (PInt q) →
       outcome (add_to_cart verify_token id token db) r fs = Ok (added item)
       ∧ ∃ d', HGET key (str id) r' = Some (json_dumps d')
               ∧ d' = <["quantity" := PInt (q + 1)]> d
               ∧ d' !! "quantity" = Some (PInt (q + 1))
               ∧ d' !! "name" = d !! "name"
               ∧ d' !! "price" = d !! "price"
               ∧ d' !! "id" = d !! "id").
Proof.
  intros Hu Hitem Hfs key r'. subst r'. unfold outcome, after.
  rewrite (add_to_cart_run id token db r fs u item) by done. fold key.
  split.
  - intros ->. simpl. split; [done|].
    rewrite HGET_EXPIRE by lia. rewrite HGET_HSET. by rewrite decide_True.
  - intros d q -> Hq. unfold new_item_info, dict_get. simpl. rewrite Hq. simpl.
    split; [done|]. eexists. split; [|split; [reflexivity|]].
    + rewrite HGET_EXPIRE by lia. rewrite HGET_HSET. by rewrite decide_True.
    + rewrite lookup_insert_eq. by rewrite !lookup_insert_ne.
Qed.

(** C7: a successful [add_to_cart] leaves the user's cart with an expiry
    24 hours (86400 s) after the time of the request, one expiry for the
    whole hash; [remove_item_from_cart], successful or not, sets no
    expiry: every cart there is after it was there before with the same
    expiry, and every cart there was before is still there with the same
    expiry, unless its only line item was the one removed. *)
Theorem expiry_reset_on_add_only id token db r fs :
  (∀ resp,
     outcome (add_to_cart verify_token id token db) r fs = Ok resp →
     ∃ u h,
       verify_token token = Ok u
       ∧ live (get_cart_key (sub u) (user_id u))
              (after (add_to_cart verify_token id token db) r fs) = Some h
       ∧ deadline h = Some (now r + 86400))
  ∧ (∀ key h',
       live key (after (remove_item_from_cart verify_token id token) r fs) = Some h' →
       ∃ h, live key r = Some h ∧ deadline h' = deadline h)
  ∧ (∀ key h,
       live key r = Some h →
       (∃ h', live key (after (remove_item_from_cart verify_token id token) r fs)
                = Some h' ∧ deadline h' = deadline h)
       ∨ dom (fields h) ⊆ {[str id]}).
Proof.
  split.
  - revert fs.
    change (wp (add_to_cart verify_token id token db)
              (λ x r', ∀ resp, x = Ok resp → ∃ u h, verify_token token = Ok u
                 ∧ live (get_cart_key (sub u) (user_id u)) r' = Some h
                 ∧ deadline h = Some (now r + 86400)) r).
    unfold add_to_cart. wp_run; try done.
    all: intros resp _; eexists _, _; split; [done|].
    all: rewrite live_EXPIRE by lia; rewrite decide_True by done.
    all: rewrite live_HSET, decide_True by done; simpl; done.
  - split; revert fs.
    2: { change (wp (remove_item_from_cart verify_token id token)
              (λ _ r', ∀ key h, live key r = Some h →
                 (∃ h', live key r' = Some h' ∧ deadline h' = deadline h)
                 ∨ dom (fields h) ⊆ {[str id]}) r).
      unfold remove_item_from_cart. wp_run; eauto.
      - intros key h Hl. left. rewrite live_HSET.
        case_decide as Hk; [subst key|by eauto].
        rewrite Hl. simpl. eauto.
      - intros key h Hl. rewrite live_HDEL.
        case_decide as Hk; [subst key|by eauto].
        rewrite Hl. simpl. case_bool_decide as Hd; [right|by eauto].
        rewrite dom_delete_L in Hd. intros x Hx.
        destruct (decide (x = str id)) as [->|Hne]; [by apply elem_of_singleton|].
        assert (x ∈ dom (fields h) ∖ {[str id]}) as Hin.
        { apply elem_of_difference. split; [done|]. by rewrite elem_of_singleton. }
        rewrite Hd in Hin. by apply not_elem_of_empty in Hin. }
    change (wp (remove_item_from_cart verify_token id token)
              (λ _ r', ∀ key h', live key r' = Some h' →
                 ∃ h, live key r = Some h ∧ deadline h' = deadline h) r).
    unfold remove_item_from_cart. wp_run; eauto.
    + intros key h'. rewrite live_HSET. case_decide as Hk; [subst key|by eauto].
      intros [= <-]. simpl.
      match goal with H : json_loads _ = Ok _ |- _ =>
        apply json_loads_Ok in H; unfold HGET in H end.
      destruct (live _ r) as [h|]; [|done]. by exists h.
    + intros key h'. rewrite live_HDEL. case_decide as Hk; [subst key|by eauto].
      destruct (live _ r) as [h|]; [|done]. simpl.
      case_bool_decide; [done|]. intros [= <-]. by exists h.
Qed.

(** C9: when one of the three cache commands of [add_to_cart] (the read,
    the write, the expiry) fails, the request ends with the 500 error that
    names the item; what the commands before the failure did to the cart
    stays: nothing if the read or the write failed, the written line item
    with the expiry left as it was if the expiry failed. *)
Theorem add_to_cart_cache_failure id token db r fs u item :
  verify_token token = Ok u →
  head (filter (λ item, Item.id item = id) db) = Some item →
  quiet 3 fs = false →
  let key := get_cart_key (sub u) (user_id u) in
  let r' := after (add_to_cart verify_token id token db) r fs in
  outcome (add_to_cart verify_token id token db) r fs
    = Raise (HTTPException 500
        ("There was a problem adding " +:+ Item.name item
         +:+ " to cart. Please try again later."))
  ∧ (∀ fs', fs = true :: fs' ∨ fs = false :: true :: fs' → r' = r)
  ∧ (∀ fs' item_info,
       fs = false :: false :: true :: fs' →
       new_item_info item (HGET key (str id) r) = Ok item_info →
       r' = HSET key (str id) (json_dumps item_info) r
       ∧ HGET key (str id) r' = Some (json_dumps item_info)
       ∧ live key r' ≫= deadline = live key r ≫= deadline).
Proof.
  intros Hu Hitem Hfs key r'. subst r'.
  pose proof (first_by_id _ _ _ Hitem) as Hid. subst id.
  assert (∀ fs0, add_to_cart verify_token (Item.id item) token db (r, fs0) =
    match fs0 with
    | true :: fs1 => (Raise (add_failed item), (r, fs1))
    | false :: true :: fs2 =>
        (Raise (add_failed item), (r, match new_item_info item (HGET key (str (Item.id item)) r) with
                                      | Ok _ => fs2 | Raise _ => true :: fs2 end))
    | false :: false :: true :: fs3 =>
        match new_item_info item (HGET key (str (Item.id item)) r) with
        | Ok item_info =>
            (Raise (add_failed item),
             (HSET key (str (Item.id item)) (json_dumps item_info) r, fs3))
        | Raise _ => (Raise (add_failed item), (r, false :: true :: fs3))
        end
    | _ => add_to_cart verify_token (Item.id item) token db (r, fs0)
    end) as Hrun.
  { intros fs0. unfold add_to_cart, bind at 1, lift at 1. rewrite Hu, Hitem.
    fold key.
    destruct fs0 as [|[] [|[] [|[] fs3]]]; try reflexivity.
    all: unfold bind, try_except, hget, hset, expire, command, lift, ret, raise,
           new_item_info; simpl.
    all: destruct (HGET key (str (Item.id item)) r) as [[d]|]; simpl; try reflexivity;
      destruct (py_add (dict_get d "quantity" (PInt 1)) 1); reflexivity. }
  unfold outcome, after. rewrite Hrun. clear Hrun.
  destruct fs as [|[] [|[] [|[] fs3]]]; try discriminate Hfs; simpl.
  all: try (destruct (new_item_info item (HGET key (str (Item.id item)) r))
              as [v|e] eqn:Hv; simpl).
  all: (split; [done | split]).
  all: try by intros ? _.
  all: try by intros ? [[=]|[=]].
  all: try by intros ? ? [=].
  intros fs' v' _ [= <-]. split; [done|split].
  - rewrite HGET_HSET. by rewrite decide_True.
  - rewrite live_HSET. by rewrite decide_True.
Qed.

(** *** Viewing *)

(** C5: with a valid token and a working cache, [view_cart] returns the
    documents of the cart's mapping, one per field; it returns the empty
    list, and no error, when there is no cart under the user's key, when
    the cart has no entries, or when it has expired. *)
Theorem view_cart_returns_line_items token r fs u :
  verify_token token = Ok u →
  quiet 1 fs = true →
  let key := get_cart_key (sub u) (user_id u) in
  ∃ lines : list (string * pydict Price),
    outcome (view_cart verify_token token) r fs = Ok lines.*2
    ∧ after (view_cart verify_token token) r fs = r
    ∧ NoDup lines.*1
    ∧ (∀ field d, (field, d) ∈ lines ↔ HGET key field r = Some (json_dumps d))
    ∧ (store r !! key = None → lines = [])
    ∧ (∀ h, store r !! key = Some h →
            fields h = ∅ ∨ expired h (now r) = true → lines = []).
Proof.
  intros Hu Hfs key. exists (prod_map id document <$> map_to_list (HGETALL key r)).
  unfold outcome, after. rewrite (view_cart_run token r fs u) by done. fold key.
  simpl. rewrite <- !list_fmap_compose.
  split; [done|]. split; [done|]. split; [apply NoDup_fst_map_to_list|].
  split; [|split].
  - intros field d. rewrite list_elem_of_fmap. split.
    + intros ([f [d']] & [= -> ->] & Hin). simpl.
      by rewrite elem_of_map_to_list, HGETALL_lookup in Hin.
    + intros Hin. exists (field, json_dumps d). split; [done|].
      by rewrite elem_of_map_to_list, HGETALL_lookup.
  - intros Hs. unfold HGETALL, live. rewrite Hs. simpl. by rewrite map_to_list_empty.
  - intros h Hs Hh. unfold HGETALL, live. rewrite Hs. simpl.
    destruct (expired h (now r)) eqn:Hx; simpl; [by rewrite map_to_list_empty|].
    destruct Hh as [->|?]; [by rewrite map_to_list_empty|done].
Qed.

(** *** Removing *)

(** C2: with a valid token and a working cache, [remove_item_from_cart]
    on a line item of quantity [q] stores it back with quantity [q - 1]
    when [q > 1]; when [q = 1] it deletes the field, and a view of the
    cart taken afterwards, at once or later, only lists the line items
    stored under other fields, so none with that item id when every line
    item sits under the field of its own id. *)
Theorem remove_item_decrements_or_deletes id token r fs u d q :
  verify_token token = Ok u →
  quiet 3 fs = true →
  let key := get_cart_key (sub u) (user_id u) in
  HGET key (str id) r = Some (json_dumps d) →
  d !! "quantity" = Some (PInt q) →
  let r' := after (remove_item_from_cart verify_token id token) r fs in
  outcome (remove_item_from_cart verify_token id token) r fs = Ok removed
  ∧ (q > 1 →
     HGET key (str id) r' = Some (json_dumps (<["quantity" := PInt (q - 1)]> d)))
  ∧ (q = 1 →
       HGET key (str id) r' = None
       ∧ HGETALL key r' = delete (str id) (HGETALL key r)
       ∧ ∀ dt, 0 ≤ dt →
           ∃ items,
             outcome (view_cart verify_token token) (elapse dt r') (tail (tail fs))
               = Ok items
             ∧ (∀ d', d' ∈ items →
                  ∃ field, field ≠ str id ∧ HGET key field r = Some (json_dumps d'))
             ∧ ((∀ field d' i, HGET key field r = Some (json_dumps d') →
                   d' !! "id" = Some (PInt i) → field = str i) →
                ∀ d', d' ∈ items → d' !! "id" ≠ Some (PInt id))).
Proof.
  intros Hu Hfs key Hd Hq r'. subst r'. unfold outcome, after.
  rewrite (remove_item_run id token r fs u d q) by auto using quiet_weaken.
  fold key. simpl. split; [done|]. split.
  - intros Hgt. rewrite bool_decide_eq_true_2 by done.
    rewrite HGET_HSET. by rewrite decide_True.
  - intros ->. rewrite bool_decide_eq_false_2 by lia.
    split; [|split].
    + rewrite HGET_HDEL. by rewrite decide_True.
    + apply HGETALL_HDEL.
    + intros dt Hdt. eexists.
      rewrite (view_cart_run token _ _ u) by auto using quiet_tail.
      fold key. simpl. split; [done|].
      assert (∀ d', d' ∈ document <$>
                       (map_to_list (HGETALL key (elapse dt (HDEL key (str id) r)))).*2 →
                ∃ field, field ≠ str id ∧ HGET key field r = Some (json_dumps d'))
        as Hview.
      { intros d' (text & -> & ([field text'] & -> & Hin)%list_elem_of_fmap)%list_elem_of_fmap.
        simpl. destruct text' as [d']. apply elem_of_map_to_list in Hin.
        destruct (HGETALL_elapse key dt (HDEL key (str id) r) Hdt) as [He|He];
          rewrite He in Hin; [by rewrite lookup_empty in Hin|].
        rewrite HGETALL_HDEL in Hin.
        apply lookup_delete_Some in Hin as [Hne Hin].
        rewrite HGETALL_lookup in Hin. eauto. }
      split; [done|].
      intros Hkeyed d' (field & Hne & Hf)%Hview Hi.
      by apply (Hkeyed field d' id) in Hi.
Qed.

(** C8: with a valid token and a working cache, removing an item id the
    cart does not hold (never added, or gone with an expired cart) makes
    [hget] return nothing and [json.loads] raise [TypeError] before the
    [try] block is entered: the exception leaves the handler as it is,
    it is neither the handler's 500 response nor a 404, and the cart is
    untouched. *)
Theorem remove_absent_item_unhandled id token r fs u :
  verify_token token = Ok u →
  quiet 1 fs = true →
  HGET (get_cart_key (sub u) (user_id u)) (str id) r = None →
  outcome (remove_item_from_cart verify_token id token) r fs = Raise TypeError
  ∧ (∀ status detail,
       outcome (remove_item_from_cart verify_token id token) r fs
         ≠ Raise (HTTPException status detail))
  ∧ after (remove_item_from_cart verify_token id token) r fs = r.
Proof.
  intros Hu Hfs Hd. unfold outcome, after.
  rewrite (remove_item_absent_run id token r fs u) by done. simpl.
  split; [done|]. split; [|done]. by intros status detail.
Qed.

(** *** The store *)

(** C6: [view_store] raises the 404 error exactly when the catalog is
    empty (and raises nothing else); for a catalog with at least one item
    it returns one entry per item, in order, with the name, the price as
    a string starting with ["$"], and the stock flag. *)
Theorem view_store_not_found_iff_empty db :
  (view_store db = Raise (HTTPException 404
      "There are no items in inventory right now. Please come back later.")
   ↔ db = [])
  ∧ ((∃ e, view_store db = Raise e) ↔ db = [])
  ∧ (db ≠ [] →
     view_store db =
       Ok ((λ item, {[ "name" := PStr (Item.name item);
                       "price" := PStr ("$" +:+ num_str (Item.price item));
                       "in_stock" := Item.in_stock item ]}) <$> db)).
Proof.
  destruct db as [|item db]; simpl.
  - split; [done|]. split; [|done]. split; [done|]. eauto.
  - split; [split; discriminate|]. split; [|done].
    split; [intros [e ?]|]; discriminate.
Qed.

End Requests.

(** ** The theorems at work on the demo shop *)

Lemma demo_cart1_reachable : reachable demo_verify_token demo_cart1.
Proof. eapply reachable_step; [apply (reachable_init _ 0)|apply step_add]. Qed.

Lemma demo_cart2_line : HGET (get_cart_key "alice" 7) (str 1) demo_cart2 = Some (json_dumps (widget_line 2)).
Proof. vm_compute. reflexivity. Qed.

Lemma add_to_cart_line_item_witness :
  HGET (get_cart_key "alice" 7) (str 1) demo_cart1 = Some (json_dumps (widget_line 1))
  ∧ ∃ d', HGET (get_cart_key "alice" 7) (str 1) demo_cart2 = Some (json_dumps d')
          ∧ d' !! "quantity" = Some (PInt 2)
          ∧ d' !! "name" = Some (PStr "Widget")
          ∧ d' !! "price" = Some (PNum 999).
Proof.
  split.
  - apply (add_to_cart_line_item demo_verify_token 1 "alice-token" demo_db
             demo_redis [] alice widget); reflexivity.
  - destruct (add_to_cart_line_item demo_verify_token 1 "alice-token" demo_db
                demo_cart1 [] alice widget eq_refl eq_refl eq_refl) as [_ Hagain].
    destruct (Hagain (widget_line 1) 1) as (_ & d' & Hd' & _ & Hq & Hn & Hp & _);
      [vm_compute; reflexivity|reflexivity|].
    exists d'. repeat split; [exact Hd'|exact Hq|exact Hn|exact Hp].
Defined.

Lemma remove_item_decrements_or_deletes_witness :
  HGET (get_cart_key "alice" 7) (str 1)
    (after (remove_item_from_cart demo_verify_token 1 "alice-token") demo_cart2 [])
    = Some (json_dumps (widget_line 1))
  ∧ HGET (get_cart_key "alice" 7) (str 1)
      (after (remove_item_from_cart demo_verify_token 1 "alice-token") demo_cart1 [])
    = None.
Proof.
  split.
  - destruct (remove_item_decrements_or_deletes demo_verify_token 1 "alice-token"
                demo_cart2 [] alice (widget_line 2) 2 eq_refl eq_refl
                demo_cart2_line eq_refl) as (_ & Hmore & _).
    exact (Hmore ltac:(lia)).
  - destruct (remove_item_decrements_or_deletes demo_verify_token 1 "alice-token"
                demo_cart1 [] alice (widget_line 1) 1 eq_refl eq_refl) as (_ & _ & Hlast);
      [vm_compute; reflexivity|reflexivity|].
    exact (proj1 (Hlast eq_refl)).
Defined.

Lemma quantity_at_least_one_witness :
  ∃ q, widget_line 1 !! "quantity" = Some (PInt q) ∧ 1 ≤ q.
Proof.
  apply (proj1 (quantity_at_least_one demo_verify_token demo_cart1 demo_cart1_reachable)
           (get_cart_key "alice" 7) (Hash {[ str 1 := json_dumps (widget_line 1) ]} (Some 86400)) (str 1)).
  - vm_compute. reflexivity.
  - vm_compute. reflexivity.
Defined.

Lemma view_cart_returns_line_items_witness :
  ∃ lines : list (string * pydict Z),
    outcome (view_cart demo_verify_token "alice-token") (elapse 86400 demo_cart1) []
      = Ok lines.*2
    ∧ lines = [].
Proof.
  destruct (view_cart_returns_line_items demo_verify_token "alice-token"
              (elapse 86400 demo_cart1) [] alice eq_refl eq_refl)
    as (lines & Hout & _ & _ & _ & _ & Hexpired).
  exists lines. split; [exact Hout|].
  apply (Hexpired (Hash {[ str 1 := json_dumps (widget_line 1) ]} (Some 86400))).
  - vm_compute. reflexivity.
  - right. vm_compute. reflexivity.
Defined.

Lemma view_store_not_found_iff_empty_witness :
  view_store demo_db =
    Ok [ {[ "name" := PStr "Widget"; "price" := PStr "$999"; "in_stock" := PBool true ]};
         {[ "name" := PStr "Gadget"; "price" := PStr "$1250"; "in_stock" := PBool false ]} ].
Proof.
  rewrite (proj2 (proj2 (view_store_not_found_iff_empty demo_db))) by discriminate.
  vm_compute. reflexivity.
Defined.

Lemma expiry_reset_on_add_only_witness :
  ∃ u h, demo_verify_token "alice-token" = Ok u
         ∧ live (get_cart_key (sub u) (user_id u))
             (after (add_to_cart demo_verify_token 1 "alice-token" demo_db)
                (elapse 100 demo_cart1) []) = Some h
         ∧ deadline h = Some (100 + 86400).
Proof.
  apply (proj1 (expiry_reset_on_add_only demo_verify_token 1 "alice-token" demo_db
                  (elapse 100 demo_cart1) []) (added widget)).
  vm_compute. reflexivity.
Defined.

Lemma remove_absent_item_unhandled_witness :
  outcome (remove_item_from_cart demo_verify_token 2 "alice-token") demo_cart1 []
    = Raise TypeError.
Proof.
  apply (remove_absent_item_unhandled demo_verify_token 2 "alice-token" demo_cart1 [] alice);
    vm_compute; reflexivity.
Defined.

Lemma add_to_cart_cache_failure_witness :
  outcome (add_to_cart demo_verify_token 1 "alice-token" demo_db)
    demo_redis [false; false; true]
    = Raise (HTTPException 500
        "There was a problem adding Widget to cart. Please try again later.")
  ∧ HGET (get_cart_key "alice" 7) (str 1)
      (after (add_to_cart demo_verify_token 1 "alice-token" demo_db)
         demo_redis [false; false; true])
    = Some (json_dumps (widget_line 1)).
Proof.
  destruct (add_to_cart_cache_failure demo_verify_token 1 "alice-token" demo_db
              demo_redis [false; false; true] alice widget eq_refl eq_refl eq_refl)
    as (Hout & _ & Hkept).
  split; [exact Hout|].
  exact (proj1 (proj2 (Hkept [] (widget_line 1) eq_refl eq_refl))).
Defined.

Lemma other_line_items_unchanged_witness :
  HGET (get_cart_key "alice" 7) (str 1)
    (after (add_to_cart demo_verify_token 2 "alice-token" demo_db) demo_cart1 [])
    = HGET (get_cart_key "alice" 7) (str 1) demo_cart1.
Proof.
  apply (other_line_items_unchanged demo_verify_token 2 1 "alice-token" demo_db
           (get_cart_key "alice" 7) demo_cart1 []).
  lia.
Defined.

(** The scenario of the specification: two adds of the widget, then two
    removes, with a view of the cart after each step. *)
Example widget_scenario :
  let view r := outcome (view_cart demo_verify_token "alice-token") r [] in
  let remove r := after (remove_item_from_cart demo_verify_token 1 "alice-token") r [] in
  view demo_redis = Ok []
  ∧ view demo_cart1 = Ok [widget_line 1]
  ∧ view demo_cart2 = Ok [widget_line 2]
  ∧ view (remove demo_cart2) = Ok [widget_line 1]
  ∧ view (remove (remove demo_cart2)) = Ok []
  ∧ store (remove (remove demo_cart2)) = ∅.
Proof. cbv zeta. repeat split; vm_compute; reflexivity. Qed.

(** * Further properties of the handlers *)

(** ** More of the Redis fragment *)

Section ServerMore.
Context {Price : Type}.
Implicit Types (r : redis Price) (h : hash Price) (d : pydict Price).
Implicit Types (value text : json_text Price).
Implicit Types (key field : string).

Lemma now_HSET key field value r : now (HSET key field value r) = now r.
Proof. done. Qed.

Lemma now_EXPIRE key s r : now (EXPIRE key s r) = now r.
Proof. unfold EXPIRE. by destruct (live key r). Qed.

Lemma now_HDEL key field r : now (HDEL key field r) = now r.
Proof. unfold HDEL. destruct (live key r); [|done]. simpl. by case_bool_decide. Qed.

Lemma store_HSET_ne key' key field value r :
  key' ≠ key → store (HSET key field value r) !! key' = store r !! key'.
Proof. intros Hk. unfold HSET. simpl. by rewrite lookup_insert_ne. Qed.

Lemma store_EXPIRE_ne key' key s r :
  key' ≠ key → store (EXPIRE key s r) !! key' = store r !! key'.
Proof.
  intros Hk. unfold EXPIRE. destruct (live key r); [|done].
  simpl. by rewrite lookup_insert_ne.
Qed.

Lemma store_HDEL_ne key' key field r :
  key' ≠ key → store (HDEL key field r) !! key' = store r !! key'.
Proof.
  intros Hk. unfold HDEL. destruct (live key r); [|done]. simpl.
  case_bool_decide; simpl.
  - by rewrite lookup_delete_ne.
  - by rewrite lookup_insert_ne.
Qed.

Lemma HGETALL_HSET key field value r :
  HGETALL key (HSET key field value r) = <[field := value]> (HGETALL key r).
Proof.
  apply map_eq. intros f. rewrite lookup_insert, !HGETALL_lookup, HGET_HSET.
  destruct (decide (field = f)) as [->|Hf].
  - by rewrite decide_True.
  - by rewrite decide_False by (intros [? ?]; congruence).
Qed.

Lemma HGETALL_EXPIRE key s r :
  0 < s → HGETALL key (EXPIRE key s r) = HGETALL key r.
Proof.
  intros Hs. apply map_eq. intros f. by rewrite !HGETALL_lookup, HGET_EXPIRE.
Qed.

(** What a command finds under a key depends on that key and the clock. *)
Lemma live_ext key r r' :
  store r' !! key = store r !! key → now r' = now r → live key r' = live key r.
Proof. unfold live. by intros -> ->. Qed.

End ServerMore.

(** ** Outcomes of the requests *)

Section Outcomes.
Context {Price : Type} `{!PyNumber Price}.
Variable verify_token : string → result user_info.
Implicit Types (r : redis Price) (fs : list bool) (d : pydict Price).
Implicit Types (db : list (Item.t Price)) (item : Item.t Price).

Ltac wp_step :=
  first [ apply wp_bind | apply wp_try_except | apply wp_ret | apply wp_raise
        | apply wp_command | apply wp_lift ];
  cbv beta iota; cbn [fst snd].

Ltac wp_case :=
  match goal with
  | |- wp (match ?x with _ => _ end) _ _ => destruct x eqn:?
  | |- match ?x with _ => _ end => destruct x eqn:?
  | |- wp (if ?x then _ else _) _ _ => destruct x eqn:?
  end.

Ltac wp_run := repeat first [ wp_step | wp_case ].

Lemma no_row_first db id :
  (∀ item, item ∈ db → Item.id item ≠ id) ↔
  head (filter (λ item, Item.id item = id) db) = None.
Proof.
  split.
  - intros Hno. destruct (head _) as [item|] eqn:Hh; [exfalso|done].
    apply head_Some_elem_of, list_elem_of_filter in Hh as [Hid Hin].
    by apply (Hno item).
  - intros Hh%head_None item Hin Hid.
    by apply (filter_nil_not_elem_of _ _ item Hh).
Qed.

(** What [add_to_cart] can end with, and the state it leaves. *)
Lemma add_to_cart_cases id token db r :
  wp (add_to_cart verify_token id token db)
     (λ x r',
        match verify_token token with
        | Raise e => x = Raise e ∧ r' = r
        | Ok u =>
            let key := get_cart_key (sub u) (user_id u) in
            match head (filter (λ item, Item.id item = id) db) with
            | None =>
                x = Raise (HTTPException 404
                             ("There is no item with the id: " +:+ str id))
                ∧ r' = r
            | Some item =>
                match new_item_info item (HGET key (str id) r) with
                | Ok info =>
                    (x = Ok (added item)
                     ∧ r' = EXPIRE key 86400 (HSET key (str id) (json_dumps info) r))
                    ∨ (x = Raise (add_failed item)
                       ∧ (r' = r ∨ r' = HSET key (str id) (json_dumps info) r))
                | Raise _ => x = Raise (add_failed item) ∧ r' = r
                end
            end
        end) r.
Proof.
  unfold add_to_cart. wp_step. wp_step.
  destruct (verify_token token) as [u|e]; [|done].
  destruct (head _) as [item|] eqn:Hitem; [|by wp_step].
  apply first_by_id in Hitem as Hid. subst id.
  unfold new_item_info.
  destruct (HGET _ _ r) as [[d]|] eqn:Hget; simpl.
  - destruct (py_add (dict_get d "quantity" (PInt 1)) 1) as [q|e] eqn:Hadd.
    + wp_run; rewrite ?Hget in *; simplify_eq/=; rewrite ?Hadd in *;
        simplify_eq/=; eauto.
    + wp_run; rewrite ?Hget in *; simplify_eq/=; rewrite ?Hadd in *;
        simplify_eq/=; eauto.
  - wp_run; rewrite ?Hget in *; simplify_eq/=; eauto.
Qed.

Lemma remove_item_cases id token r :
  wp (remove_item_from_cart verify_token id token)
     (λ x r',
        match verify_token token with
        | Raise e => x = Raise e ∧ r' = r
        | Ok u =>
            let key := get_cart_key (sub u) (user_id u) in
            (x = Raise RedisError ∧ r' = r)
            ∨ match HGET key (str id) r with
              | None => x = Raise TypeError ∧ r' = r
              | Some text =>
                  (x = Ok removed
                   ∧ ((∃ qv q, dict_index (document text) "quantity" = Ok qv
                               ∧ py_gt qv 1 = Ok true
                               ∧ py_sub (dict_get (document text) "quantity" (PInt 1)) 1
                                 = Ok q
                               ∧ r' = HSET key (str id)
                                        (json_dumps (<["quantity" := q]> (document text))) r)
                      ∨ r' = HDEL key (str id) r))
                  ∨ (x = Raise (HTTPException 500
                        "Could not delete item from the cart. Please try again later.")
                     ∧ r' = r)
              end
        end) r.
Proof.
  unfold remove_item_from_cart. wp_step. wp_step.
  destruct (verify_token token) as [u|e]; [|done].
  wp_step. wp_step; [by left|].
  destruct (HGET _ _ r) as [[d]|] eqn:Hget; simpl.
  - wp_run; right; eauto 10.
  - wp_run. by right.
Qed.

(** X1: [add_to_cart] for an item of the catalog, with a valid token, ends in
    one of two ways: the confirmation, or the 500 error naming the item.
    It confirms exactly when none of its three commands fails and the
    stored quantity, if any, can be incremented; no exception of the
    cache or of the decoding leaves the handler. *)
Theorem add_to_cart_succeeds_iff id token db r fs u item :
  verify_token token = Ok u →
  head (filter (λ item, Item.id item = id) db) = Some item →
  let key := get_cart_key (sub u) (user_id u) in
  (outcome (add_to_cart verify_token id token db) r fs = Ok (added item)
   ∨ outcome (add_to_cart verify_token id token db) r fs = Raise (add_failed item))
  ∧ (outcome (add_to_cart verify_token id token db) r fs = Ok (added item)
     ↔ quiet 3 fs = true
       ∧ ∃ info, new_item_info item (HGET key (str id) r) = Ok info).
Proof.
  intros Hu Hitem key.
  pose proof (add_to_cart_cases id token db r fs) as Hcases. simpl in Hcases.
  rewrite Hu, Hitem in Hcases. fold key in Hcases.
  split.
  { destruct (new_item_info item (HGET key (str id) r)).
    - destruct Hcases as [[? _]|[? _]]; [by left|by right].
    - destruct Hcases as [? _]. by right. }
  split.
  - intros Hok. destruct (quiet 3 fs) eqn:Hq.
    + split; [done|].
      destruct (new_item_info item (HGET key (str id) r)) as [info|e]; [by eauto|].
      destruct Hcases as [Hx _]. congruence.
    + exfalso. clear Hcases. revert Hok. unfold outcome.
      pose proof (first_by_id _ _ _ Hitem) as Hid. subst id.
      unfold add_to_cart, bind at 1, lift at 1. rewrite Hu, Hitem. fold key.
      destruct fs as [|[] [|[] [|[] fs3]]]; try discriminate Hq.
      all: unfold bind, try_except, hget, hset, expire, command, lift, ret, raise; simpl.
      all: destruct (HGET key (str (Item.id item)) r) as [[d]|]; simpl; try discriminate;
        destruct (py_add (dict_get d "quantity" (PInt 1)) 1); discriminate.
  - intros [Hq [info Hinfo]]. unfold outcome.
    rewrite (add_to_cart_run verify_token id token db r fs u item) by done.
    fold key. by rewrite Hinfo.
Qed.

(** X2: [add_to_cart] on an id that no row of the catalog has answers 404
    with the id in the message, and it does so before any cache command:
    the cart and the pending commands are as they were.  With a valid
    token the 404 is raised in this case only. *)
Theorem add_to_cart_unknown_item id token db r fs u :
  verify_token token = Ok u →
  ((∀ item, item ∈ db → Item.id item ≠ id) →
   add_to_cart verify_token id token db (r, fs) =
     (Raise (HTTPException 404 ("There is no item with the id: " +:+ str id)), (r, fs)))
  ∧ ((∃ detail, outcome (add_to_cart verify_token id token db) r fs
                  = Raise (HTTPException 404 detail)) →
     ∀ item, item ∈ db → Item.id item ≠ id).
Proof.
  intros Hu. split.
  - intros Hno%no_row_first.
    unfold add_to_cart, bind at 1, lift at 1. by rewrite Hu, Hno.
  - intros [detail H404]. apply no_row_first.
    pose proof (add_to_cart_cases id token db r fs) as Hcases. simpl in Hcases.
    rewrite Hu in Hcases.
    destruct (head _) as [item|]; [exfalso|done].
    unfold add_failed in Hcases.
    destruct (new_item_info _ _).
    + destruct Hcases as [[Hx _]|[Hx _]]; rewrite Hx in H404; discriminate.
    + destruct Hcases as [Hx _]. rewrite Hx in H404. discriminate.
Qed.

(** X3: A token the verifier rejects ends each of the three cart requests
    with the verifier's exception, before the catalog is looked at and
    before any cache command. *)
Theorem rejected_token_stops_request id token db r fs e :
  verify_token token = Raise e →
  add_to_cart verify_token id token db (r, fs) = (Raise e, (r, fs))
  ∧ view_cart verify_token token (r, fs) = (Raise e, (r, fs))
  ∧ remove_item_from_cart verify_token id token (r, fs) = (Raise e, (r, fs)).
Proof.
  intros He. unfold add_to_cart, view_cart, remove_item_from_cart, bind, lift.
  by rewrite He.
Qed.

(** X4: [view_cart] never changes the cart store, whatever it ends with; when
    its one command fails, the cache's exception leaves the handler as it
    is (there is no [try] around it). *)
Theorem view_cart_read_only token r fs :
  after (view_cart verify_token token) r fs = r
  ∧ (∀ u fs', verify_token token = Ok u → fs = true :: fs' →
       outcome (view_cart verify_token token) r fs = Raise RedisError).
Proof.
  split.
  - revert fs. change (wp (view_cart verify_token token) (λ _ r', r' = r) r).
    unfold view_cart. by wp_run.
  - intros u fs' Hu ->. unfold outcome, view_cart, bind, lift. by rewrite Hu.
Qed.

(** X5: [remove_item_from_cart] changes the cart only when it confirms: every
    way it fails (a rejected token, a failed read, an absent line item, a
    failure inside the [try]) leaves the store as it was.  A failed read
    is not caught; a failure of the write or of the delete gives the 500
    error. *)
Theorem remove_item_all_or_nothing id token r fs :
  (∀ e, outcome (remove_item_from_cart verify_token id token) r fs = Raise e →
        after (remove_item_from_cart verify_token id token) r fs = r)
  ∧ (∀ u fs', verify_token token = Ok u → fs = true :: fs' →
       outcome (remove_item_from_cart verify_token id token) r fs = Raise RedisError)
  ∧ (∀ u text fs',
       verify_token token = Ok u →
       HGET (get_cart_key (sub u) (user_id u)) (str id) r = Some text →
       fs = false :: true :: fs' →
       outcome (remove_item_from_cart verify_token id token) r fs
         = Raise (HTTPException 500
             "Could not delete item from the cart. Please try again later.")).
Proof.
  split; [|split].
  - intros e He.
    pose proof (remove_item_cases id token r fs) as Hcases. simpl in Hcases.
    destruct (verify_token token) as [u|e']; [|by destruct Hcases].
    destruct Hcases as [[_ ?]|Hcases]; [done|].
    destruct (HGET _ _ r); [|by destruct Hcases].
    destruct Hcases as [[Hok _]|[_ ?]]; [congruence|done].
  - intros u fs' Hu ->.
    unfold outcome, remove_item_from_cart, bind, lift. by rewrite Hu.
  - intros u [d] fs' Hu Hget ->.
    unfold outcome, remove_item_from_cart, bind at 1, lift at 1. rewrite Hu.
    unfold bind at 1, hget, command. simpl. rewrite Hget. simpl.
    unfold bind, try_except, lift, hset, hdel, command, raise. simpl.
    destruct (dict_index d "quantity") as [qv|]; simpl; [|done].
    destruct (py_gt qv 1) as [[]|]; simpl; [|done..].
    by destruct (py_sub (dict_get d "quantity" (PInt 1)) 1).
Qed.

End Outcomes.

(** ** Carts of different users, and their expiry *)

Section Carts.
Context {Price : Type} `{!PyNumber Price}.
Variable verify_token : string → result user_info.
Implicit Types (r : redis Price) (fs : list bool) (d : pydict Price).
Implicit Types (db : list (Item.t Price)) (item : Item.t Price).

Lemma add_to_cart_other_keys id token db r fs u key' :
  verify_token token = Ok u →
  key' ≠ get_cart_key (sub u) (user_id u) →
  store (after (add_to_cart verify_token id token db) r fs) !! key' = store r !! key'
  ∧ now (after (add_to_cart verify_token id token db) r fs) = now r.
Proof.
  intros Hu Hk.
  pose proof (add_to_cart_cases verify_token id token db r fs) as Hcases.
  simpl in Hcases. rewrite Hu in Hcases.
  destruct (head _) as [item|]; [|by destruct Hcases as [_ ->]].
  destruct (new_item_info _ _) as [info|e]; [|by destruct Hcases as [_ ->]].
  destruct Hcases as [[_ ->]|[_ [->| ->]]]; [|done|].
  - by rewrite store_EXPIRE_ne, store_HSET_ne, now_EXPIRE.
  - by rewrite store_HSET_ne.
Qed.

Lemma remove_item_other_keys id token r fs u key' :
  verify_token token = Ok u →
  key' ≠ get_cart_key (sub u) (user_id u) →
  store (after (remove_item_from_cart verify_token id token) r fs) !! key'
    = store r !! key'
  ∧ now (after (remove_item_from_cart verify_token id token) r fs) = now r.
Proof.
  intros Hu Hk.
  pose proof (remove_item_cases verify_token id token r fs) as Hcases.
  simpl in Hcases. rewrite Hu in Hcases.
  destruct Hcases as [[_ ->]|Hcases]; [done|].
  destruct (HGET _ _ r) as [text|]; [|by destruct Hcases as [_ ->]].
  destruct Hcases as [[_ [(qv & q & _ & _ & _ & ->)| ->]]|[_ ->]]; [| |done].
  - by rewrite store_HSET_ne.
  - by rewrite store_HDEL_ne, now_HDEL.
Qed.

(** What [view_cart] answers depends on the user's hash and the clock only. *)
Lemma view_cart_outcome_ext token u r r' fs :
  verify_token token = Ok u →
  store r' !! get_cart_key (sub u) (user_id u)
    = store r !! get_cart_key (sub u) (user_id u) →
  now r' = now r →
  outcome (view_cart verify_token token) r' fs
    = outcome (view_cart verify_token token) r fs.
Proof.
  intros Hu Hs Hn. unfold outcome, view_cart, bind, lift, hgetall, command.
  rewrite Hu. unfold HGETALL. rewrite (live_ext _ r r') by done.
  by destruct fs as [|[] fs].
Qed.

(** X6: Users do not touch each other's carts: an [add_to_cart] or a
    [remove_item_from_cart] by one user, whatever item it is for and however
    it ends, leaves the hash of every other user (line items and expiry)
    as it was, and with it what [view_cart] answers that user. *)
Theorem other_users_carts_untouched id token db r fs u token' u' fs' :
  verify_token token = Ok u →
  verify_token token' = Ok u' →
  (sub u', user_id u') ≠ (sub u, user_id u) →
  let key' := get_cart_key (sub u') (user_id u') in
  let r1 := after (add_to_cart verify_token id token db) r fs in
  let r2 := after (remove_item_from_cart verify_token id token) r fs in
  store r1 !! key' = store r !! key'
  ∧ store r2 !! key' = store r !! key'
  ∧ outcome (view_cart verify_token token') r1 fs'
      = outcome (view_cart verify_token token') r fs'
  ∧ outcome (view_cart verify_token token') r2 fs'
      = outcome (view_cart verify_token token') r fs'.
Proof.
  intros Hu Hu' Hne key' r1 r2.
  assert (key' ≠ get_cart_key (sub u) (user_id u)) as Hk.
  { intros [Hs Hi]%get_cart_key_eq. apply Hne. by rewrite Hs, Hi. }
  destruct (add_to_cart_other_keys id token db r fs u key' Hu Hk) as [Hs1 Hn1].
  destruct (remove_item_other_keys id token r fs u key' Hu Hk) as [Hs2 Hn2].
  split; [done|]. split; [done|].
  split; by apply (view_cart_outcome_ext token' u').
Qed.

(** A live hash is served until its deadline and not after. *)
Lemma HGETALL_until_deadline key r h t dt :
  live key r = Some h → deadline h = Some t → 0 ≤ dt →
  (now r + dt < t → HGETALL key (elapse dt r) = HGETALL key r)
  ∧ (t ≤ now r + dt → HGETALL key (elapse dt r) = ∅).
Proof.
  intros Hl Ht Hdt. pose proof Hl as [Hs Hx]%live_Some.
  unfold HGETALL. rewrite Hl. unfold live, elapse. simpl. rewrite Hs. simpl.
  unfold expired. rewrite Ht.
  split; intros Hlt.
  - by rewrite bool_decide_eq_false_2 by lia.
  - by rewrite bool_decide_eq_true_2 by lia.
Qed.

(** X7: After a successful [add_to_cart] the cart holds the item, and the
    whole cart (this line item and the ones it had) is served for the
    next 24 hours; from 86400 seconds on, with no other add in between,
    the cart is gone and [view_cart] answers the empty list. *)
Theorem cart_lives_24_hours id token db r fs resp u :
  outcome (add_to_cart verify_token id token db) r fs = Ok resp →
  verify_token token = Ok u →
  let key := get_cart_key (sub u) (user_id u) in
  let r' := after (add_to_cart verify_token id token db) r fs in
  is_Some (HGET key (str id) r')
  ∧ (∀ field, is_Some (HGET key field r) → is_Some (HGET key field r'))
  ∧ (∀ dt, 0 ≤ dt < 86400 → HGETALL key (elapse dt r') = HGETALL key r')
  ∧ (∀ dt fs', 86400 ≤ dt → quiet 1 fs' = true →
       outcome (view_cart verify_token token) (elapse dt r') fs' = Ok []).
Proof.
  intros Hok Hu key r'.
  pose proof (add_to_cart_cases verify_token id token db r fs) as Hcases.
  simpl in Hcases. rewrite Hu, Hok in Hcases. fold key r' in Hcases.
  destruct (head _) as [item|]; [|by destruct Hcases].
  destruct (new_item_info _ _) as [info|e]; [|by destruct Hcases].
  destruct Hcases as [[_ Hr']|[? _]]; [|done].
  assert (live key r' = Some (Hash (<[str id := json_dumps info]> (HGETALL key r))
                                (Some (now r + 86400)))) as Hlive.
  { rewrite Hr', live_EXPIRE by lia. rewrite decide_True by done.
    rewrite live_HSET, decide_True by done. done. }
  assert (now r' = now r) as Hnow by (by rewrite Hr', now_EXPIRE).
  assert (∀ field, HGET key field r' = <[str id := json_dumps info]> (HGETALL key r) !! field)
    as Hget.
  { intros field. unfold HGET. by rewrite Hlive. }
  split; [|split; [|split]].
  - rewrite Hget, lookup_insert_eq. eauto.
  - intros field Hf. rewrite Hget.
    destruct (decide (str id = field)) as [<-|Hne].
    + rewrite lookup_insert_eq. eauto.
    + by rewrite lookup_insert_ne, HGETALL_lookup.
  - intros dt [Hdt0 Hdt].
    apply (HGETALL_until_deadline key r' _ _ dt Hlive eq_refl Hdt0). lia.
  - intros dt fs' Hdt Hfs'. unfold outcome.
    rewrite (view_cart_run verify_token token _ fs' u) by done. fold key. simpl.
    destruct (HGETALL_until_deadline key r' _ _ dt Hlive eq_refl) as [_ Hgone]; [lia|].
    rewrite Hgone by lia. by rewrite map_to_list_empty.
Qed.

End Carts.

(** ** Sequences of requests *)

Section Sequences.
Context {Price : Type} `{!PyNumber Price}.
Variable verify_token : string → result user_info.
Implicit Types (r : redis Price) (fs : list bool) (d : pydict Price).
Implicit Types (db : list (Item.t Price)) (item : Item.t Price).

Lemma set_quantity_line_item item q q' :
  <["quantity" := PInt q']> (line_item item q) = line_item item q'.
Proof.
  unfold line_item. apply map_eq. intros k.
  destruct (decide (k = "quantity")) as [->|Hk].
  - rewrite lookup_insert_eq. by rewrite !lookup_insert_ne, lookup_singleton_eq.
  - rewrite lookup_insert_ne by done.
    rewrite !lookup_insert. repeat case_decide; try done.
    by rewrite !lookup_singleton_ne.
Qed.

Lemma set_quantity_twice d (v v' : pyval Price) :
  <["quantity" := v']> (<["quantity" := v]> d) = <["quantity" := v']> d.
Proof. apply insert_insert_eq. Qed.

(** One more add on a line item with an integer quantity. *)
Lemma add_to_cart_again id token db r u item d q :
  verify_token token = Ok u →
  head (filter (λ item, Item.id item = id) db) = Some item →
  let key := get_cart_key (sub u) (user_id u) in
  HGET key (str id) r = Some (json_dumps d) →
  d !! "quantity" = Some (PInt q) →
  after (add_to_cart verify_token id token db) r []
    = EXPIRE key 86400
        (HSET key (str id) (json_dumps (<["quantity" := PInt (q + 1)]> d)) r).
Proof.
  intros Hu Hitem key Hd Hq. unfold after.
  rewrite (add_to_cart_run verify_token id token db r [] u item) by done.
  fold key. rewrite Hd. unfold new_item_info, dict_get. simpl. by rewrite Hq.
Qed.

Lemma add_to_cart_first id token db r u item :
  verify_token token = Ok u →
  head (filter (λ item, Item.id item = id) db) = Some item →
  let key := get_cart_key (sub u) (user_id u) in
  HGET key (str id) r = None →
  after (add_to_cart verify_token id token db) r []
    = EXPIRE key 86400 (HSET key (str id) (json_dumps (line_item item 1)) r).
Proof.
  intros Hu Hitem key Hd. unfold after.
  rewrite (add_to_cart_run verify_token id token db r [] u item) by done.
  fold key. by rewrite Hd.
Qed.

Lemma HGET_after_write key field value r :
  HGET key field (EXPIRE key 86400 (HSET key field value r)) = Some value.
Proof. rewrite HGET_EXPIRE by lia. rewrite HGET_HSET. by rewrite decide_True. Qed.

Lemma served_adds id token db r u item n :
  verify_token token = Ok u →
  head (filter (λ item, Item.id item = id) db) = Some item →
  HGET (get_cart_key (sub u) (user_id u)) (str id) r = None →
  HGET (get_cart_key (sub u) (user_id u)) (str id)
    (served (S n) (add_to_cart verify_token id token db) r)
    = Some (json_dumps (line_item item (Z.of_nat (S n)))).
Proof.
  intros Hu Hitem Hnone. induction n as [|n IH].
  - simpl served. rewrite (add_to_cart_first id token db r u item) by done.
    apply HGET_after_write.
  - change (served (S (S n)) ?m r) with (after m (served (S n) m r) []).
    rewrite (add_to_cart_again id token db _ u item _ (Z.of_nat (S n)) Hu Hitem IH).
    + rewrite HGET_after_write, set_quantity_line_item. do 3 f_equal. lia.
    + unfold line_item. by rewrite !lookup_insert_ne, lookup_singleton_eq.
Qed.

Lemma served_removes id token r u d q (k : nat) :
  verify_token token = Ok u →
  HGET (get_cart_key (sub u) (user_id u)) (str id) r = Some (json_dumps d) →
  d !! "quantity" = Some (PInt q) →
  1 ≤ q →
  Z.of_nat k ≤ q →
  HGET (get_cart_key (sub u) (user_id u)) (str id)
    (served k (remove_item_from_cart verify_token id token) r)
    = if decide (Z.of_nat k = q) then None
      else Some (json_dumps (<["quantity" := PInt (q - Z.of_nat k)]> d)).
Proof.
  intros Hu Hd Hq Hpos. induction k as [|k IH]; intros Hk.
  - simpl served. rewrite decide_False by lia.
    rewrite Hd. do 2 f_equal. symmetry. apply insert_id.
    rewrite Hq. do 2 f_equal. lia.
  - simpl served. unfold after.
    specialize (IH ltac:(lia)). rewrite decide_False in IH by lia.
    rewrite (remove_item_run verify_token id token _ [] u _ (q - Z.of_nat k))
      by (done || by rewrite lookup_insert_eq).
    simpl. case_bool_decide as Hgt.
    + rewrite HGET_HSET, decide_True by done.
      assert (Z.of_nat (S k) ≠ q) as Hne by lia.
      rewrite (decide_False (P := Z.of_nat (S k) = q)) by done.
      rewrite set_quantity_twice.
      by replace (q - Z.of_nat k - 1) with (q - Z.of_nat (S k)) by lia.
    + rewrite HGET_HDEL, decide_True by done.
      assert (Z.of_nat (S k) = q) as Heq by lia.
      by rewrite (decide_True (P := Z.of_nat (S k) = q)) by done.
Qed.

(** X8: Quantities count: starting without the item, [n] adds followed by
    [k ≤ n] removes of it (all served by a working cache) leave the line
    item with the name and price of the catalog and quantity [n - k], and
    no line item at all when [k = n]. *)
Theorem quantity_counts_adds_minus_removes id token db r u item (n k : nat) :
  verify_token token = Ok u →
  head (filter (λ item, Item.id item = id) db) = Some item →
  let key := get_cart_key (sub u) (user_id u) in
  HGET key (str id) r = None →
  (k ≤ n)%nat →
  HGET key (str id)
    (served k (remove_item_from_cart verify_token id token)
       (served n (add_to_cart verify_token id token db) r))
    = if decide (k = n) then None
      else Some (json_dumps (line_item item (Z.of_nat n - Z.of_nat k))).
Proof.
  intros Hu Hitem key Hnone Hk. subst key. destruct n as [|n].
  - assert (k = 0%nat) as -> by lia. by rewrite decide_True.
  - pose proof (served_adds id token db r u item n Hu Hitem Hnone) as Hadds.
    rewrite (served_removes id token _ u _ (Z.of_nat (S n)) k Hu Hadds);
      [|unfold line_item; by rewrite !lookup_insert_ne, lookup_singleton_eq|lia..].
    destruct (decide (k = S n)) as [->|Hne].
    + by rewrite !decide_True.
    + assert (Z.of_nat k ≠ Z.of_nat (S n)) as Hne' by lia.
      rewrite (decide_False (P := Z.of_nat k = Z.of_nat (S n))) by done.
      by rewrite set_quantity_line_item.
Qed.

(** X9: An add followed by a remove of the same item (both served by a
    working cache) gives back the cart's mapping as it was: no line item
    if there was none, the stored document otherwise; the other keys are
    left alone.  (The expiry is not given back: the add has reset it.) *)
Theorem add_then_remove_restores_cart id token db r fs1 fs2 u item :
  verify_token token = Ok u →
  head (filter (λ item, Item.id item = id) db) = Some item →
  quiet 3 fs1 = true →
  quiet 2 fs2 = true →
  let key := get_cart_key (sub u) (user_id u) in
  (HGET key (str id) r = None
   ∨ ∃ d q, HGET key (str id) r = Some (json_dumps d)
            ∧ d !! "quantity" = Some (PInt q) ∧ 1 ≤ q) →
  let r1 := after (add_to_cart verify_token id token db) r fs1 in
  let r2 := after (remove_item_from_cart verify_token id token) r1 fs2 in
  outcome (remove_item_from_cart verify_token id token) r1 fs2 = Ok removed
  ∧ HGETALL key r2 = HGETALL key r
  ∧ (∀ key', key' ≠ key → store r2 !! key' = store r !! key').
Proof.
  intros Hu Hitem Hfs1 Hfs2 key Hline r1 r2. subst r2 r1. unfold outcome, after.
  rewrite (add_to_cart_run verify_token id token db r fs1 u item) by done. fold key.
  destruct Hline as [Hnone|(d & q & Hd & Hq & Hpos)].
  - rewrite Hnone. simpl.
    rewrite (remove_item_run verify_token id token _ fs2 u (line_item item 1) 1);
      [|done..|apply HGET_after_write|done].
    fold key. simpl. split; [done|]. split.
    + rewrite HGETALL_HDEL, HGETALL_EXPIRE, HGETALL_HSET by lia.
      rewrite delete_insert_eq. apply delete_id. by rewrite HGETALL_lookup.
    + intros key' Hk. by rewrite store_HDEL_ne, store_EXPIRE_ne, store_HSET_ne.
  - rewrite Hd. unfold new_item_info, dict_get. simpl. rewrite Hq. simpl.
    rewrite (remove_item_run verify_token id token _ fs2 u
               (<["quantity" := PInt (q + 1)]> d) (q + 1));
      [|done..|apply HGET_after_write|by rewrite lookup_insert_eq].
    fold key. simpl. rewrite bool_decide_eq_true_2 by lia.
    split; [done|]. split.
    + rewrite HGETALL_HSET, HGETALL_EXPIRE, HGETALL_HSET by lia.
      rewrite insert_insert_eq, set_quantity_twice.
      replace (q + 1 - 1) with q by lia.
      rewrite (insert_id d) by done.
      apply insert_id. by rewrite HGETALL_lookup.
    + intros key' Hk. by rewrite store_HSET_ne, store_EXPIRE_ne, store_HSET_ne.
Qed.

End Sequences.

(** ** Line items that are not well formed *)

Section Irregular.
Context {Price : Type} `{!PyNumber Price}.
Variable verify_token : string → result user_info.
Implicit Types (r : redis Price) (fs : list bool) (d : pydict Price).
Implicit Types (db : list (Item.t Price)) (item : Item.t Price).

(** X10: [add_to_cart] on a stored line item without ['quantity'] takes 1 for
    it ([.get('quantity', 1)]) and stores quantity 2; on one whose
    ['quantity'] is [None] or a string the addition raises inside the
    [try], so the request ends with the 500 error naming the item and the
    cart is left as it was, whichever commands fail. *)
Theorem add_to_cart_irregular_quantity id token db r fs u item d :
  verify_token token = Ok u →
  head (filter (λ item, Item.id item = id) db) = Some item →
  let key := get_cart_key (sub u) (user_id u) in
  HGET key (str id) r = Some (json_dumps d) →
  (d !! "quantity" = None → quiet 3 fs = true →
     outcome (add_to_cart verify_token id token db) r fs = Ok (added item)
     ∧ HGET key (str id) (after (add_to_cart verify_token id token db) r fs)
       = Some (json_dumps (<["quantity" := PInt 2]> d)))
  ∧ (d !! "quantity" = Some PNone ∨ (∃ s, d !! "quantity" = Some (PStr s)) →
     outcome (add_to_cart verify_token id token db) r fs = Raise (add_failed item)
     ∧ after (add_to_cart verify_token id token db) r fs = r).
Proof.
  intros Hu Hitem key Hd. split.
  - intros Hq Hfs. unfold outcome, after.
    rewrite (add_to_cart_run verify_token id token db r fs u item) by done.
    fold key. rewrite Hd. unfold new_item_info, dict_get. simpl. rewrite Hq. simpl.
    split; [done|]. rewrite HGET_EXPIRE by lia. rewrite HGET_HSET.
    by rewrite decide_True.
  - intros Hq.
    pose proof (add_to_cart_cases verify_token id token db r fs) as Hcases.
    simpl in Hcases. rewrite Hu, Hitem in Hcases. fold key in Hcases.
    rewrite Hd in Hcases. unfold new_item_info, dict_get in Hcases.
    simpl in Hcases.
    by destruct Hq as [Hq|[s Hq]]; rewrite Hq in Hcases.
Qed.

(** X11: [remove_item_from_cart] on a stored line item without ['quantity']
    (a [KeyError] on [item['quantity']]), or with a ['quantity'] that is
    [None] or a string (a [TypeError] on the comparison), ends with the
    500 error and leaves the cart as it was. *)
Theorem remove_item_irregular_quantity id token r fs u d :
  verify_token token = Ok u →
  quiet 1 fs = true →
  HGET (get_cart_key (sub u) (user_id u)) (str id) r = Some (json_dumps d) →
  d !! "quantity" = None ∨ d !! "quantity" = Some PNone
    ∨ (∃ s, d !! "quantity" = Some (PStr s)) →
  outcome (remove_item_from_cart verify_token id token) r fs
    = Raise (HTTPException 500
        "Could not delete item from the cart. Please try again later.")
  ∧ after (remove_item_from_cart verify_token id token) r fs = r.
Proof.
  intros Hu Hfs Hd Hq.
  assert (remove_item_from_cart verify_token id token (r, fs) =
            (Raise (HTTPException 500
               "Could not delete item from the cart. Please try again later."),
             (r, tail fs))) as Hrun.
  { unfold remove_item_from_cart, bind at 1, lift at 1. rewrite Hu.
    unfold bind at 1, hget. rewrite (command_quiet 0) by done.
    cbn [fst snd]. rewrite Hd.
    unfold bind, lift, try_except, raise, dict_index; simpl.
    by destruct Hq as [Hq|[Hq|[s Hq]]]; rewrite Hq. }
  unfold outcome, after. by rewrite Hrun.
Qed.

(** X12: Whatever is stored and whichever commands fail, the line item that
    [remove_item_from_cart] leaves under the item's field is the one that
    was there, or one whose quantity, if an integer, is at least 1: a
    quantity of 1 or less deletes the field instead of writing 0. *)
Theorem remove_item_never_writes_zero id token r fs u d' z :
  verify_token token = Ok u →
  let key := get_cart_key (sub u) (user_id u) in
  let r' := after (remove_item_from_cart verify_token id token) r fs in
  HGET key (str id) r' = Some (json_dumps d') →
  d' !! "quantity" = Some (PInt z) →
  HGET key (str id) r = Some (json_dumps d') ∨ 1 ≤ z.
Proof.
  intros Hu key r' Hd' Hz. subst r'.
  pose proof (remove_item_cases verify_token id token r fs) as Hcases.
  simpl in Hcases. rewrite Hu in Hcases. fold key in Hcases.
  destruct Hcases as [[_ Hr]|Hcases]; [left; by rewrite <- Hr|].
  destruct (HGET key (str id) r) as [[d]|] eqn:Hd;
    [|destruct Hcases as [_ Hr]; rewrite Hr, Hd in Hd'; done].
  simpl in Hcases.
  destruct Hcases as [[_ [(qv & q & Hidx & Hgt & Hsub & Hr)|Hr]]|[_ Hr]].
  - right. rewrite Hr, HGET_HSET, decide_True in Hd' by done.
    injection Hd' as <-. rewrite lookup_insert_eq in Hz. injection Hz as ->.
    unfold dict_index, dict_get in *.
    destruct (d !! "quantity") as [[| b | z0 | p | s]|]; simplify_eq/=.
    + by destruct b.
    + apply bool_decide_eq_true in Hgt. lia.
  - rewrite Hr, HGET_HDEL, decide_True in Hd' by done. done.
  - left. by rewrite Hr, Hd in Hd'.
Qed.

End Irregular.

(** ** Expiry as an invariant, and the order of adds *)

Section Expiry.
Context {Price : Type} `{!PyNumber Price}.
Variable verify_token : string → result user_info.
Implicit Types (r : redis Price) (fs : list bool) (d : pydict Price).
Implicit Types (db : list (Item.t Price)) (item : Item.t Price).

(** The state after the write and the expiry of a successful add. *)
Lemma write_and_expire key field value r :
  EXPIRE key 86400 (HSET key field value r)
    = Redis (<[key := Hash (<[field := value]> (HGETALL key r))
                          (Some (now r + 86400))]> (store r))
            (now r).
Proof.
  unfold EXPIRE. rewrite live_HSET, decide_True by done.
  unfold HSET. simpl. by rewrite insert_insert_eq.
Qed.

Lemma carts_expire_write key field value r :
  carts_expire r → carts_expire (EXPIRE key 86400 (HSET key field value r)).
Proof.
  intros Hr key' h'. rewrite write_and_expire. simpl.
  destruct (decide (key' = key)) as [->|Hk].
  - rewrite lookup_insert_eq. intros [= <-]. simpl. eexists. split; [done|lia].
  - rewrite lookup_insert_ne by done. apply Hr.
Qed.

Lemma carts_expire_HSET_live key field value r :
  is_Some (live key r) → carts_expire r → carts_expire (HSET key field value r).
Proof.
  intros [h Hl] Hr key' h'. unfold HSET. rewrite Hl. simpl.
  apply live_Some in Hl as [Hs _].
  destruct (decide (key' = key)) as [->|Hk].
  - rewrite lookup_insert_eq. intros [= <-]. simpl. by apply (Hr key h).
  - rewrite lookup_insert_ne by done. apply Hr.
Qed.

Lemma carts_expire_HDEL key field r :
  carts_expire r → carts_expire (HDEL key field r).
Proof.
  intros Hr key' h'. unfold HDEL.
  destruct (live key r) as [h|] eqn:Hl; [|apply Hr].
  apply live_Some in Hl as [Hs _]. simpl. case_bool_decide; simpl.
  - intros [_ Hs']%lookup_delete_Some. by apply (Hr key' h').
  - destruct (decide (key' = key)) as [->|Hk].
    + rewrite lookup_insert_eq. intros [= <-]. simpl. by apply (Hr key h).
    + rewrite lookup_insert_ne by done. apply Hr.
Qed.

Lemma carts_expire_elapse dt r :
  0 ≤ dt → carts_expire r → carts_expire (elapse dt r).
Proof.
  intros Hdt Hr key h Hs. destruct (Hr key h Hs) as (t & Ht & Hle).
  exists t. split; [done|]. simpl. lia.
Qed.

Lemma healthy_step_carts_expire r r' :
  healthy_step verify_token r r' → carts_expire r → carts_expire r'.
Proof.
  intros [id token db fs r0 Hfs|id token fs r0|token fs r0|dt r0 Hdt] Hr.
  - destruct (verify_token token) as [u|e] eqn:Hu.
    + destruct (head (filter (λ item, Item.id item = id) db)) as [item|] eqn:Hitem.
      * unfold after.
        rewrite (add_to_cart_run verify_token id token db r0 fs u item) by done.
        destruct (new_item_info _ _); [|done]. by apply carts_expire_write.
      * pose proof (add_to_cart_cases verify_token id token db r0 fs) as Hc.
        simpl in Hc. rewrite Hu, Hitem in Hc. by destruct Hc as [_ ->].
    + pose proof (add_to_cart_cases verify_token id token db r0 fs) as Hc.
      simpl in Hc. rewrite Hu in Hc. by destruct Hc as [_ ->].
  - pose proof (remove_item_cases verify_token id token r0 fs) as Hc.
    simpl in Hc. destruct (verify_token token) as [u|e]; [|by destruct Hc as [_ ->]].
    destruct Hc as [[_ ->]|Hc]; [done|].
    destruct (HGET _ _ r0) as [text|] eqn:Hget; [|by destruct Hc as [_ ->]].
    destruct Hc as [[_ [(qv & q & _ & _ & _ & ->)| ->]]|[_ ->]]; [| |done].
    + apply carts_expire_HSET_live; [|done].
      unfold HGET in Hget. destruct (live _ r0); [eauto|done].
    + by apply carts_expire_HDEL.
  - by rewrite (view_cart_pure verify_token token r0 fs).
  - by apply carts_expire_elapse.
Qed.

Lemma healthy_carts_expire r : healthy verify_token r → carts_expire r.
Proof.
  induction 1 as [t|r r' _ IH Hstep].
  - intros key h. simpl. by rewrite lookup_empty.
  - by eapply healthy_step_carts_expire.
Qed.

(** X13: As long as no command of an add fails, every cart in the store has
    an expiry, never more than 24 hours ahead; so whatever the users have
    done, 24 hours without a request leave no cart to serve. *)
Theorem no_cart_outlives_24_hours r :
  healthy verify_token r →
  (∀ key h, store r !! key = Some h →
     ∃ t, deadline h = Some t ∧ t ≤ now r + 86400)
  ∧ (∀ key dt, 86400 ≤ dt → HGETALL key (elapse dt r) = ∅).
Proof.
  intros Hr%healthy_carts_expire. split; [exact Hr|].
  intros key dt Hdt. unfold HGETALL, live, elapse. simpl.
  destruct (store r !! key) as [h|] eqn:Hs; [|done]. simpl.
  destruct (Hr key h Hs) as (t & Ht & Hle).
  unfold expired. rewrite Ht. by rewrite bool_decide_eq_true_2 by lia.
Qed.


End Expiry.

(** ** The view after an add *)

Section Views.
Context {Price : Type} `{!PyNumber Price}.
Variable verify_token : string → result user_info.
Implicit Types (r : redis Price) (fs : list bool) (d : pydict Price).
Implicit Types (db : list (Item.t Price)) (item : Item.t Price).

Lemma view_lists_documents (m : gmap string (json_text Price)) field d :
  m !! field = Some (json_dumps d) → d ∈ document <$> (map_to_list m).*2.
Proof.
  intros Hm. apply list_elem_of_fmap. exists (json_dumps d). split; [done|].
  apply list_elem_of_fmap. exists (field, json_dumps d). split; [done|].
  by apply elem_of_map_to_list.
Qed.

(** X15: What the user sees after a successful add: a first add of an item
    makes the view one entry longer and the new entry is the item's line
    item with quantity 1; an add of an item the cart holds keeps the
    number of entries and shows that item with its quantity plus 1. *)
Theorem view_after_add id token db r fs fs' u item :
  verify_token token = Ok u →
  head (filter (λ item, Item.id item = id) db) = Some item →
  quiet 3 fs = true →
  quiet 1 fs' = true →
  let key := get_cart_key (sub u) (user_id u) in
  let r' := after (add_to_cart verify_token id token db) r fs in
  ∃ before items,
    outcome (view_cart verify_token token) r fs' = Ok before
    ∧ outcome (view_cart verify_token token) r' fs' = Ok items
    ∧ (HGET key (str id) r = None →
         List.length items = S (List.length before) ∧ line_item item 1 ∈ items)
    ∧ (∀ d q, HGET key (str id) r = Some (json_dumps d) →
              d !! "quantity" = Some (PInt q) →
         List.length items = List.length before
         ∧ <["quantity" := PInt (q + 1)]> d ∈ items).
Proof.
  intros Hu Hitem Hfs Hfs' key r'. subst r'. unfold outcome, after.
  rewrite !(view_cart_run verify_token token _ fs' u) by done. fold key.
  rewrite (add_to_cart_run verify_token id token db r fs u item) by done. fold key.
  eexists _, _. split; [done|]. split; [done|].
  rewrite !length_fmap, !length_map_to_list. split.
  - intros Hnone. rewrite Hnone. simpl.
    rewrite HGETALL_EXPIRE, HGETALL_HSET by lia.
    split.
    + apply map_size_insert_None. by rewrite HGETALL_lookup.
    + apply (view_lists_documents _ (str id)). by rewrite lookup_insert_eq.
  - intros d q Hd Hq. rewrite Hd. unfold new_item_info, dict_get. simpl.
    rewrite Hq. simpl.
    rewrite HGETALL_EXPIRE, HGETALL_HSET by lia.
    split.
    + eapply map_size_insert_Some. by rewrite HGETALL_lookup.
    + apply (view_lists_documents _ (str id)). by rewrite lookup_insert_eq.
Qed.

End Views.

(** ** The further properties at work on the demo shop *)

Lemma demo_cart1_healthy : healthy demo_verify_token demo_cart1.
Proof. eapply healthy_next; [apply (healthy_init _ 0)|by apply healthy_add]. Qed.

Lemma demo_cart1_line :
  HGET (get_cart_key "alice" 7) (str 1) demo_cart1 = Some (json_dumps (widget_line 1)).
Proof. vm_compute. reflexivity. Qed.

Lemma odd_redis_line :
  HGET (get_cart_key "alice" 7) (str 1) odd_redis
    = Some (json_dumps {[ "id" := PInt 1 ]}).
Proof. vm_compute. reflexivity. Qed.

Lemma add_to_cart_succeeds_iff_witness :
  outcome (add_to_cart demo_verify_token 1 "alice-token" demo_db) demo_cart1 []
    = Ok (added widget)
  ∧ outcome (add_to_cart demo_verify_token 1 "alice-token" demo_db) demo_cart1
      [false; true] ≠ Ok (added widget).
Proof.
  split.
  - apply (add_to_cart_succeeds_iff demo_verify_token 1 "alice-token" demo_db
             demo_cart1 [] alice widget eq_refl eq_refl).
    split; [reflexivity|]. exists (widget_line 2). vm_compute. reflexivity.
  - intros Hok.
    apply (add_to_cart_succeeds_iff demo_verify_token 1 "alice-token" demo_db
             demo_cart1 [false; true] alice widget eq_refl eq_refl) in Hok
      as [Hq _].
    discriminate Hq.
Defined.

Lemma add_to_cart_unknown_item_witness :
  add_to_cart demo_verify_token 3 "alice-token" demo_db (demo_cart1, [true])
    = (Raise (HTTPException 404 ("There is no item with the id: " +:+ str 3)),
       (demo_cart1, [true])).
Proof.
  apply (add_to_cart_unknown_item demo_verify_token 3 "alice-token" demo_db
           demo_cart1 [true] alice eq_refl).
  intros item Hin.
  apply list_elem_of_In in Hin. simpl in Hin.
  destruct Hin as [<-|[<-|[]]]; discriminate.
Defined.

Lemma rejected_token_stops_request_witness :
  remove_item_from_cart demo_verify_token 1 "mallory" (demo_cart1, [])
    = (Raise (HTTPException 401 "Invalid or expired token"), (demo_cart1, [])).
Proof.
  apply (rejected_token_stops_request demo_verify_token 1 "mallory" demo_db
           demo_cart1 [] (HTTPException 401 "Invalid or expired token")).
  reflexivity.
Defined.

Lemma view_cart_read_only_witness :
  after (view_cart demo_verify_token "alice-token") demo_cart1 [true] = demo_cart1
  ∧ outcome (view_cart demo_verify_token "alice-token") demo_cart1 [true]
    = Raise RedisError.
Proof.
  destruct (view_cart_read_only demo_verify_token "alice-token" demo_cart1 [true])
    as [Hsame Hraw].
  split; [exact Hsame|]. exact (Hraw alice [] eq_refl eq_refl).
Defined.

Lemma remove_item_all_or_nothing_witness :
  outcome (remove_item_from_cart demo_verify_token 1 "alice-token") demo_cart1
    [false; true]
    = Raise (HTTPException 500
        "Could not delete item from the cart. Please try again later.")
  ∧ after (remove_item_from_cart demo_verify_token 1 "alice-token") demo_cart1
      [false; true] = demo_cart1.
Proof.
  destruct (remove_item_all_or_nothing demo_verify_token 1 "alice-token" demo_cart1
              [false; true]) as (Hsame & _ & H500).
  pose proof (H500 alice (json_dumps (widget_line 1)) [] eq_refl demo_cart1_line eq_refl)
    as Hout.
  split; [exact Hout|]. exact (Hsame _ Hout).
Defined.

Lemma other_users_carts_untouched_witness :
  outcome (view_cart shop_verify_token "alice-token")
    (after (add_to_cart shop_verify_token 2 "bob-token" demo_db) demo_cart1 []) []
  = outcome (view_cart shop_verify_token "alice-token") demo_cart1 [].
Proof.
  destruct (other_users_carts_untouched shop_verify_token 2 "bob-token" demo_db
              demo_cart1 [] bob "alice-token" alice [] eq_refl eq_refl)
    as (_ & _ & Hview & _).
  - intros [= ? ?].
  - exact Hview.
Defined.

Lemma cart_lives_24_hours_witness :
  HGETALL (get_cart_key "alice" 7) (elapse 86399 demo_cart1)
    = HGETALL (get_cart_key "alice" 7) demo_cart1
  ∧ outcome (view_cart demo_verify_token "alice-token") (elapse 86400 demo_cart1) []
    = Ok [].
Proof.
  destruct (cart_lives_24_hours demo_verify_token 1 "alice-token" demo_db demo_redis
              [] (added widget) alice) as (_ & _ & Hlive & Hgone).
  - vm_compute. reflexivity.
  - reflexivity.
  - split.
    + apply (Hlive 86399). lia.
    + apply (Hgone 86400 []); [lia|reflexivity].
Defined.

Lemma quantity_counts_adds_minus_removes_witness :
  HGET (get_cart_key "alice" 7) (str 1)
    (served 2 (remove_item_from_cart demo_verify_token 1 "alice-token")
       (served 5 (add_to_cart demo_verify_token 1 "alice-token" demo_db) demo_redis))
  = Some (json_dumps (line_item widget 3)).
Proof.
  apply (quantity_counts_adds_minus_removes demo_verify_token 1 "alice-token" demo_db
           demo_redis alice widget 5 2 eq_refl eq_refl eq_refl).
  lia.
Defined.

Lemma add_then_remove_restores_cart_witness :
  HGETALL (get_cart_key "alice" 7)
    (after (remove_item_from_cart demo_verify_token 1 "alice-token")
       (after (add_to_cart demo_verify_token 1 "alice-token" demo_db) demo_cart1 []) [])
  = HGETALL (get_cart_key "alice" 7) demo_cart1.
Proof.
  destruct (add_then_remove_restores_cart demo_verify_token 1 "alice-token" demo_db
              demo_cart1 [] [] alice widget eq_refl eq_refl eq_refl eq_refl)
    as (_ & Hsame & _).
  - right. exists (widget_line 1), 1.
    split; [exact demo_cart1_line|]. split; [reflexivity|lia].
  - exact Hsame.
Defined.

Lemma add_to_cart_irregular_quantity_witness :
  HGET (get_cart_key "alice" 7) (str 1)
    (after (add_to_cart demo_verify_token 1 "alice-token" demo_db) odd_redis [])
  = Some (json_dumps (<["quantity" := PInt 2]> {[ "id" := PInt 1 ]})).
Proof.
  destruct (add_to_cart_irregular_quantity demo_verify_token 1 "alice-token" demo_db
              odd_redis [] alice widget {[ "id" := PInt 1 ]} eq_refl eq_refl
              odd_redis_line) as [Hdefault _].
  exact (proj2 (Hdefault eq_refl eq_refl)).
Defined.

Lemma remove_item_irregular_quantity_witness :
  outcome (remove_item_from_cart demo_verify_token 1 "alice-token") odd_redis []
    = Raise (HTTPException 500
        "Could not delete item from the cart. Please try again later.")
  ∧ after (remove_item_from_cart demo_verify_token 1 "alice-token") odd_redis []
    = odd_redis.
Proof.
  apply (remove_item_irregular_quantity demo_verify_token 1 "alice-token" odd_redis
           [] alice {[ "id" := PInt 1 ]} eq_refl eq_refl odd_redis_line).
  left. reflexivity.
Defined.

Lemma remove_item_never_writes_zero_witness :
  HGET (get_cart_key "alice" 7) (str 1) demo_cart2 = Some (json_dumps (widget_line 1))
  ∨ 1 ≤ 1.
Proof.
  apply (remove_item_never_writes_zero demo_verify_token 1 "alice-token" demo_cart2
           [] alice (widget_line 1) 1 eq_refl).
  - vm_compute. reflexivity.
  - reflexivity.
Defined.

Lemma no_cart_outlives_24_hours_witness :
  HGETALL (get_cart_key "alice" 7) (elapse 86400 demo_cart1) = ∅.
Proof.
  apply (proj2 (no_cart_outlives_24_hours demo_verify_token demo_cart1
                  demo_cart1_healthy)).
  lia.
Defined.


Lemma view_after_add_witness :
  ∃ before items,
    outcome (view_cart demo_verify_token "alice-token") demo_cart1 [] = Ok before
    ∧ outcome (view_cart demo_verify_token "alice-token")
        (after (add_to_cart demo_verify_token 2 "alice-token" demo_db) demo_cart1 []) []
      = Ok items
    ∧ List.length items = S (List.length before).
Proof.
  destruct (view_after_add demo_verify_token 2 "alice-token" demo_db demo_cart1 [] []
              alice (Item.mk 2 "Gadget" 1250 (PBool false))
              eq_refl eq_refl eq_refl eq_refl)
    as (before & items & Hb & Hi & Hfirst & _).
  exists before, items. split; [exact Hb|]. split; [exact Hi|].
  apply Hfirst. vm_compute. reflexivity.
Defined.
